(** * Checkout handler of [api/pay.js]: a shallow embedding and its properties

    The handler of [api/pay.js] receives a checkout request, resolves a
    catalog variation and a customer through the payments platform, creates
    an order, charges a payment and answers with JSON.

    The embedding follows the source function by function:
    - JavaScript strings are [string]s; a character stands for one code unit
      below 256 (the Latin-1 range), which is where [toLowerCase], [\s] and
      [trim] are spelled out;
    - JavaScript numbers are binary64 floats ([PrimFloat.float]), BigInts are
      [Z];
    - [await]ed calls, [try]/[catch], the response object and the console are
      threaded through a state-and-exception monad [Js];
    - the payments platform, [crypto.randomUUID], the environment variables
      and the texts of engine-raised errors are the fields of a [Runtime]. *)

From Stdlib Require Import ZArith QArith List String Ascii Bool Lia Sorted.
From Stdlib Require Import Floats.
Import ListNotations.

Set Warnings "-inexact-float".

Local Open Scope string_scope.
Local Open Scope Z_scope.

(** ** JavaScript strings *)

Module JsString.

(** [\s] of a regular expression, and the characters [trim] strips:
    TAB, LF, VT, FF, CR, SPACE and NO-BREAK SPACE among code units < 256. *)
Definition isWhiteSpace (c : ascii) : bool :=
  let n := N_of_ascii c in
  (((9 <=? n) && (n <=? 13)) || (n =? 32) || (n =? 160))%N.

(** Upper-case letters among code units < 256: A-Z, and the Latin-1
    letters U+00C0..U+00DE without the multiplication sign U+00D7. *)
Definition isUpperCase (c : ascii) : bool :=
  let n := N_of_ascii c in
  (((65 <=? n) && (n <=? 90))
   || ((192 <=? n) && (n <=? 222) && negb (n =? 215)))%N.

Definition toLowerCaseChar (c : ascii) : ascii :=
  if isUpperCase c then ascii_of_N (N_of_ascii c + 32) else c.

(** [s.toLowerCase()] *)
Fixpoint toLowerCase (s : string) : string :=
  match s with
  | EmptyString => EmptyString
  | String c r => String (toLowerCaseChar c) (toLowerCase r)
  end.

(** [s.replace(/\s+/g, '_')]: scanning from the left, every maximal run of
    white space is replaced by one underscore; [inRun] tells that the
    previous character already belonged to the run being replaced. *)
Fixpoint replaceRuns (inRun : bool) (s : string) : string :=
  match s with
  | EmptyString => EmptyString
  | String c r =>
      if isWhiteSpace c
      then (if inRun then replaceRuns true r
            else String "_" (replaceRuns true r))
      else String c (replaceRuns false r)
  end.

Definition replaceWhiteSpaceRuns (s : string) : string := replaceRuns false s.

Fixpoint trimStart (s : string) : string :=
  match s with
  | EmptyString => EmptyString
  | String c r => if isWhiteSpace c then trimStart r else s
  end.

Fixpoint trimEnd (s : string) : string :=
  match s with
  | EmptyString => EmptyString
  | String c r =>
      match trimEnd r with
      | EmptyString => if isWhiteSpace c then EmptyString
                       else String c EmptyString
      | r' => String c r'
      end
  end.

(** [s.trim()] *)
Definition trim (s : string) : string := trimEnd (trimStart s).

(** [s.split(' ')]: never the empty array. *)
Fixpoint split_space (s : string) : list string :=
  match s with
  | EmptyString => [EmptyString]
  | String c r =>
      if Ascii.eqb c " "
      then EmptyString :: split_space r
      else match split_space r with
           | h :: t => String c h :: t
           | [] => [String c EmptyString]
           end
  end.

(** [parts.join(' ')] *)
Fixpoint join_space (parts : list string) : string :=
  match parts with
  | [] => EmptyString
  | [p] => p
  | p :: rest => p ++ " " ++ join_space rest
  end.

(** Truthiness of a string: only the empty string is falsy. *)
Definition truthy (s : string) : bool :=
  match s with EmptyString => false | _ => true end.

(** [a || b] on strings. *)
Definition or_else (a b : string) : string := if truthy a then a else b.

End JsString.

(** ** JavaScript numbers *)

Module JsNumber.

Local Open Scope float_scope.

(** The integer value of [Math.round(x)] for a finite [x]: the integer
    closest to [x], the one towards +Infinity on a tie, which is
    [floor (x + 1/2)] on the exact value [(-1)^s * m * 2^e] of [x].
    [None] stands for the numbers [Math.round] leaves alone: NaN and the
    infinities.  ([Math.round] of a small negative number is -0, which
    [BigInt] reads as 0.) *)
Definition Math_round (x : float) : option Z :=
  match Prim2SF x with
  | S754_zero _ => Some 0%Z
  | S754_finite s m e =>
      let sm := if s then Z.neg m else Z.pos m in
      Some (if (0 <=? e)%Z then (sm * 2 ^ e)%Z
            else ((2 * sm + 2 ^ (- e)) / 2 ^ (- e + 1))%Z)
  | S754_infinity _ | S754_nan => None
  end.

(** Amounts are sent in minor units: [Math.round(x * 100)]. *)
Definition minorUnits (x : float) : option Z := Math_round (x * 100).

(** The exact value of a finite number, as a rational. *)
Definition exact (x : spec_float) : Q :=
  match x with
  | S754_finite s m e =>
      let sm := if s then Z.neg m else Z.pos m in
      if (0 <=? e)%Z then inject_Z (sm * 2 ^ e)
      else Qmake sm (Z.to_pos (2 ^ (- e)))
  | _ => 0%Q
  end.

(** [String(n)] for an integer-valued [n] below 1e21 in magnitude: its
    decimal digits. *)
Definition digit (n : Z) : ascii := ascii_of_N (48 + Z.to_N n).

Fixpoint digits (fuel : nat) (n : Z) (acc : string) : string :=
  match fuel with
  | O => acc
  | S fuel' =>
      let acc' := String (digit (n mod 10)) acc in
      if (n <? 10)%Z then acc' else digits fuel' (n / 10)%Z acc'
  end.

Definition String_ (n : Z) : string :=
  if (n <? 0)%Z
  then String "-" (digits (S (Z.to_nat (Z.log2 (- n)))) (- n)%Z EmptyString)
  else digits (S (Z.to_nat (Z.log2 n))) n EmptyString.

End JsNumber.

Import JsString JsNumber.

(** ** Errors *)

(** One entry of the [errors] array of the platform's API error. *)
Record ApiErrorEntry := { detail : option string }.

(** A thrown error object: the [errors] array is there on the platform's API
    errors only; [message] is there on every error. *)
Record JsError := {
  errors : option (list ApiErrorEntry);
  message : string
}.

(** [error.errors?.[0]?.detail || error.message] *)
Definition errorText (error : JsError) : string :=
  match errors error with
  | Some (first :: _) =>
      match detail first with
      | Some d => or_else d (message error)
      | None => message error
      end
  | _ => message error
  end.

(** Errors the engine itself raises in this program. *)
Inductive Fault :=
| DestructureNonObject     (* [const {...} = req.body] on undefined or null *)
| ToLowerCaseOfNonString   (* [customerName.toLowerCase()] *)
| MapOfNonArray            (* [items.map(...)] *)
| BigIntOfNonInteger       (* [BigInt(NaN)], [BigInt(Infinity)] *)
| PropertyOfUndefined.     (* [.id] of a missing record of a response *)

(** Result of an [await]ed call or of an expression that may throw. *)
Inductive outcome (A : Type) :=
| Fulfilled (a : A)
| Rejected (error : JsError).
Arguments Fulfilled {A} a.
Arguments Rejected {A} error.

(** ** Requests of the handler *)

(** A request item; [quantity] is carried as the integer it is meant to be. *)
Record Item := {
  name : string;
  quantity : Z;
  price : float;
  comment : option string
}.

(** The body of a checkout request.  [customerName] is [None] when the field
    is not a string, [items] is [None] when it is not an array; a missing
    [amount] or [price] is a NaN. *)
Record CheckoutRequest := {
  sourceId : string;
  amount : float;
  customerName : option string;
  pickupDate : string;
  items : option (list Item)
}.

Record Req := {
  method : string;
  body : option CheckoutRequest
}.

(** ** Requests and responses of the payments platform *)

Record Money := { money_amount : Z; currency : string }.

Record SearchCustomersRequest := { search_referenceId_exact : string }.

Record Customer := { customer_id : option string }.

Record SearchCustomersResponse := { customers : option (list Customer) }.

Record CreateCustomerRequest := {
  givenName : string;
  familyName : string;
  referenceId : string;
  customer_idempotencyKey : string
}.

Record CreateCustomerResponse := { customer : option Customer }.

Record CatalogItemVariation := { variation_id : string }.

Record CatalogItem := { variations : option (list CatalogItemVariation) }.

Record CatalogObject := { itemData : option CatalogItem }.

Record RetrieveCatalogObjectResponse := { object : option CatalogObject }.

Record OrderLineItem := {
  line_quantity : string;
  catalogObjectId : string;
  basePriceMoney : Money;
  line_note : string
}.

Record OrderRequest := {
  order_locationId : string;
  order_customerId : option string;
  lineItems : list OrderLineItem;
  state : string
}.

Record CreateOrderRequest := {
  order : OrderRequest;
  order_idempotencyKey : string
}.

Record Order := { order_id : option string }.

Record CreateOrderResponse := { created_order : option Order }.

Record CreatePaymentRequest := {
  payment_sourceId : string;
  payment_idempotencyKey : string;
  amountMoney : Money;
  payment_locationId : string;
  payment_orderId : option string;
  payment_customerId : option string;
  payment_note : string
}.

Record Payment := { payment_id : option string; payment_status : option string }.

Record CreatePaymentResponse := { payment : option Payment }.

(** The calls the program makes to the platform's client. *)
Inductive RemoteCall :=
| SearchCustomers (rq : SearchCustomersRequest)
| CreateCustomer (rq : CreateCustomerRequest)
| RetrieveCatalogObject (objectId : string) (includeRelatedObjects : bool)
| CreateOrder (rq : CreateOrderRequest)
| CreatePayment (rq : CreatePaymentRequest).

(** A call that was made, with the error it threw, if it threw. *)
Record Exchange := { call : RemoteCall; threw : option JsError }.

(** ** The response object and the console *)

Inductive JsonBody :=
| ErrorBody (error : string)                       (* {error} *)
| FailureBody (error : string)                     (* {success:false, error} *)
| SuccessBody (paymentId orderId status : option string).
                                                   (* {success:true, ...} *)

Inductive Sent :=
| Ended                     (* [res.end()] *)
| Json (j : JsonBody).      (* [res.json(j)] *)

Record Res := {
  headers : list (string * string);
  statusCode : Z;
  sent : option Sent
}.

Inductive ConsoleLine :=
| ErrorLine (label : string) (text : string)
| ErrorObject (label : string) (error : JsError).

(** ** The runtime the module runs in *)

Record Runtime := {
  World : Type;
  (* client.catalogApi, client.customersApi, client.ordersApi, client.paymentsApi *)
  retrieveCatalogObject :
    string -> bool -> World -> outcome RetrieveCatalogObjectResponse * World;
  searchCustomers :
    SearchCustomersRequest -> World -> outcome SearchCustomersResponse * World;
  createCustomer :
    CreateCustomerRequest -> World -> outcome CreateCustomerResponse * World;
  createOrder :
    CreateOrderRequest -> World -> outcome CreateOrderResponse * World;
  createPayment :
    CreatePaymentRequest -> World -> outcome CreatePaymentResponse * World;
  (* crypto.randomUUID *)
  randomUUID : World -> string * World;
  (* process.env *)
  LOCATION_ID : string;
  CATALOG_ITEM_ID : string;
  (* the message of an engine-raised error *)
  faultMessage : Fault -> string
}.

(** ** The program *)

Section Program.

Variable R : Runtime.

(** What a run of the handler reads and writes: the outside world, the calls
    made to the platform so far (oldest first), the console, and [res]. *)
Record St := {
  world : World R;
  calls : list Exchange;
  console : list ConsoleLine;
  res : Res
}.

(** A computation that may throw and that reads and writes [St]. *)
Definition Js (A : Type) : Type := St -> outcome A * St.

Definition ret {A} (a : A) : Js A := fun s => (Fulfilled a, s).

Definition bind {A B} (m : Js A) (k : A -> Js B) : Js B :=
  fun s => match m s with
           | (Fulfilled a, s') => k a s'
           | (Rejected e, s') => (Rejected e, s')
           end.

Notation "x <- m ;; k" := (bind m (fun x => k))
  (at level 61, m at next level, right associativity).
Notation "m ;; k" := (bind m (fun _ => k))
  (at level 61, right associativity).

Definition throw {A} (e : JsError) : Js A := fun s => (Rejected e, s).

(** An error raised by the engine: no [errors] array, the engine's message. *)
Definition faultError (f : Fault) : JsError :=
  {| errors := None; message := faultMessage R f |}.

Definition raise {A} (f : Fault) : Js A := throw (faultError f).

(** [try { m } catch (error) { h error }] *)
Definition try_catch {A} (m : Js A) (h : JsError -> Js A) : Js A :=
  fun s => match m s with
           | (Fulfilled a, s') => (Fulfilled a, s')
           | (Rejected e, s') => h e s'
           end.

Definition thrown {A} (r : outcome A) : option JsError :=
  match r with
  | Fulfilled _ => None
  | Rejected e => Some e
  end.

(** [await client.api.method(...)]: the platform answers or throws, and the
    call is recorded. *)
Definition await {A} (c : RemoteCall)
    (api : World R -> outcome A * World R) : Js A :=
  fun s =>
    let (r, w) := api (world s) in
    (r, {| world := w;
           calls := calls s ++ [ {| call := c; threw := thrown r |} ];
           console := console s;
           res := res s |}).

(** [crypto.randomUUID()] *)
Definition crypto_randomUUID : Js string :=
  fun s =>
    let (uuid, w) := randomUUID R (world s) in
    (Fulfilled uuid,
     {| world := w; calls := calls s; console := console s; res := res s |}).

(** [console.error(...)] *)
Definition console_error (l : ConsoleLine) : Js unit :=
  fun s =>
    (Fulfilled tt,
     {| world := world s; calls := calls s;
        console := console s ++ [l]; res := res s |}).

Definition modify_res (f : Res -> Res) : Js unit :=
  fun s =>
    (Fulfilled tt,
     {| world := world s; calls := calls s;
        console := console s; res := f (res s) |}).

(** [res.setHeader(k, v)] *)
Definition res_setHeader (k v : string) : Js unit :=
  modify_res (fun r => {| headers := headers r ++ [(k, v)];
                          statusCode := statusCode r; sent := sent r |}).

(** [res.status(code)] *)
Definition res_status (code : Z) : Js unit :=
  modify_res (fun r => {| headers := headers r;
                          statusCode := code; sent := sent r |}).

(** [res.end()] *)
Definition res_end : Js unit :=
  modify_res (fun r => {| headers := headers r;
                          statusCode := statusCode r; sent := Some Ended |}).

(** [res.json(j)] *)
Definition res_json (j : JsonBody) : Js unit :=
  modify_res (fun r => {| headers := headers r;
                          statusCode := statusCode r; sent := Some (Json j) |}).

(** [BigInt(n)] for the [n] that [Math.round] returns: a RangeError on NaN
    and on the infinities. *)
Definition BigInt (n : option Z) : Js Z :=
  match n with
  | Some z => ret z
  | None => raise BigIntOfNonInteger
  end.

(** The key a customer is searched for and created under (lines 21 and 35). *)
Definition customerReferenceId (customerName : string) : string :=
  replaceWhiteSpaceRuns (toLowerCase customerName).

(** [getOrCreateCustomer], lines 15-44. *)
Definition getOrCreateCustomer (customerName : option string)
    : Js (option string) :=
  try_catch
    (match customerName with
     | None => raise ToLowerCaseOfNonString
     | Some customerName =>
         let searchRequest :=
           {| search_referenceId_exact := customerReferenceId customerName |} in
         searchResponse <-
           await (SearchCustomers searchRequest)
                 (searchCustomers R searchRequest) ;;
         match customers searchResponse with
         | Some (first :: _) => ret (customer_id first)
         | _ =>
             let nameParts := split_space (trim customerName) in
             uuid <- crypto_randomUUID ;;
             let createRequest :=
               {| givenName := or_else (hd EmptyString nameParts) customerName;
                  familyName := or_else (join_space (tl nameParts)) EmptyString;
                  referenceId := customerReferenceId customerName;
                  customer_idempotencyKey := uuid |} in
             createResponse <-
               await (CreateCustomer createRequest)
                     (createCustomer R createRequest) ;;
             match customer createResponse with
             | Some c => ret (customer_id c)
             | None => raise PropertyOfUndefined
             end
         end
     end)
    (fun error =>
       console_error (ErrorLine "Customer error:" (errorText error)) ;;
       ret None).

(** [item?.itemData?.variations?.length > 0], then [variations[0].id]. *)
Definition firstVariationId (item : option CatalogObject) : option string :=
  match item with
  | Some item =>
      match itemData item with
      | Some data =>
          match variations data with
          | Some (first :: _) => Some (variation_id first)
          | _ => None
          end
      | None => None
      end
  | None => None
  end.

(** [getItemVariationId], lines 47-58. *)
Definition getItemVariationId : Js (option string) :=
  try_catch
    (response <-
       await (RetrieveCatalogObject (CATALOG_ITEM_ID R) true)
             (retrieveCatalogObject R (CATALOG_ITEM_ID R) true) ;;
     ret (firstVariationId (object response)))
    (fun error =>
       console_error (ErrorLine "Catalog error:" (errorText error)) ;;
       ret None).

(** The callback of [items.map], lines 89-97. *)
Definition lineItem (itemVariationId : string) (item : Item)
    : Js OrderLineItem :=
  cents <- BigInt (Math_round (price item * 100)%float) ;;
  ret {| line_quantity := String_ (quantity item);
         catalogObjectId := itemVariationId;
         basePriceMoney := {| money_amount := cents; currency := "USD" |};
         line_note :=
           name item ++
           match comment item with
           | Some (String c r) => " - " ++ String c r
           | _ => EmptyString
           end |}.

Fixpoint mapJs {A B} (f : A -> Js B) (l : list A) : Js (list B) :=
  match l with
  | [] => ret []
  | a :: rest => b <- f a ;; bs <- mapJs f rest ;; ret (b :: bs)
  end.

(** [items.map(item => ...)] *)
Definition items_map (itemVariationId : string) (items : option (list Item))
    : Js (list OrderLineItem) :=
  match items with
  | Some items => mapJs (lineItem itemVariationId) items
  | None => raise MapOfNonArray
  end.

(** The [try] block of the handler, lines 82-124. *)
Definition checkout (b : CheckoutRequest) (itemVariationId : string)
    : Js unit :=
  customerId <- getOrCreateCustomer (customerName b) ;;
  lines <- items_map itemVariationId (items b) ;;
  orderKey <- crypto_randomUUID ;;
  let orderRequest :=
    {| order := {| order_locationId := LOCATION_ID R;
                   order_customerId := customerId;
                   lineItems := lines;
                   state := "OPEN" |};
       order_idempotencyKey := orderKey |} in
  orderResponse <-
    await (CreateOrder orderRequest) (createOrder R orderRequest) ;;
  let order := created_order orderResponse in
  paymentKey <- crypto_randomUUID ;;
  cents <- BigInt (Math_round (amount b * 100)%float) ;;
  orderId <- match order with
             | Some o => ret (order_id o)
             | None => raise PropertyOfUndefined
             end ;;
  let paymentRequest :=
    {| payment_sourceId := sourceId b;
       payment_idempotencyKey := paymentKey;
       amountMoney := {| money_amount := cents; currency := "USD" |};
       payment_locationId := LOCATION_ID R;
       payment_orderId := orderId;
       payment_customerId := customerId;
       payment_note := "Pickup: " ++ pickupDate b |} in
  paymentResponse <-
    await (CreatePayment paymentRequest) (createPayment R paymentRequest) ;;
  match payment paymentResponse with
  | Some p =>
      res_json (SuccessBody (payment_id p) orderId (payment_status p))
  | None => raise PropertyOfUndefined
  end.

(** The [catch] block of the handler, lines 125-131. *)
Definition catchBlock (error : JsError) : Js unit :=
  console_error (ErrorObject "Payment error:" error) ;;
  res_status 500 ;;
  res_json (FailureBody (errorText error)).

(** [handler], lines 60-132. *)
Definition handler (req : Req) : Js unit :=
  res_setHeader "Access-Control-Allow-Origin" "*" ;;
  res_setHeader "Access-Control-Allow-Methods" "POST, OPTIONS" ;;
  res_setHeader "Access-Control-Allow-Headers" "Content-Type" ;;
  if String.eqb (method req) "OPTIONS" then
    res_status 200 ;; res_end
  else if negb (String.eqb (method req) "POST") then
    res_status 405 ;; res_json (ErrorBody "Method not allowed")
  else
    match body req with
    | None => raise DestructureNonObject
    | Some b =>
        itemVariationId <- getItemVariationId ;;
        match itemVariationId with
        | Some (String c r) =>
            try_catch (checkout b (String c r)) catchBlock
        | _ =>
            res_status 500 ;;
            res_json (FailureBody "Item variation not configured")
        end
    end.

(** The state a request is handled from: nothing called or logged yet, and a
    response object with the default status 200 and nothing sent. *)
Definition fresh (w : World R) : St :=
  {| world := w;
     calls := [];
     console := [];
     res := {| headers := []; statusCode := 200; sent := None |} |}.

(** The calls of a run of the handler and the response it leaves. *)
Definition run (req : Req) (w : World R) : outcome unit * St :=
  handler req (fresh w).

End Program.

Arguments world {R} s.
Arguments calls {R} s.
Arguments console {R} s.
Arguments res {R} s.
Arguments ret {R A} a.
Arguments bind {R A B} m k.
Arguments throw {R A} e.
Arguments try_catch {R A} m h.
Arguments await {R A} c api.
Arguments mapJs {R A B} f l.

(** ** What a run of the handler can look like *)

Definition exchange (c : RemoteCall) (e : option JsError) : Exchange :=
  {| call := c; threw := e |}.

Definition isCatalogCall (c : RemoteCall) : bool :=
  match c with RetrieveCatalogObject _ _ => true | _ => false end.

Definition isCustomerCall (c : RemoteCall) : bool :=
  match c with SearchCustomers _ | CreateCustomer _ => true | _ => false end.

Definition isOrderCall (c : RemoteCall) : bool :=
  match c with CreateOrder _ => true | _ => false end.

Definition isPaymentCall (c : RemoteCall) : bool :=
  match c with CreatePayment _ => true | _ => false end.

Definition failed (x : Exchange) : bool :=
  match threw x with Some _ => true | None => false end.

(** The headers every response carries (lines 62-64). *)
Definition corsHeaders : list (string * string) :=
  [ ("Access-Control-Allow-Origin", "*");
    ("Access-Control-Allow-Methods", "POST, OPTIONS");
    ("Access-Control-Allow-Headers", "Content-Type") ].

Definition Responded {R : Runtime} (st : St R) (code : Z) (b : Sent) : Prop :=
  res st = {| headers := corsHeaders; statusCode := code; sent := Some b |}.

(** What the platform answers to the catalog lookup in world [w]. *)
Definition catalogLookup (R : Runtime) (w : World R)
    : outcome RetrieveCatalogObjectResponse :=
  fst (retrieveCatalogObject R (CATALOG_ITEM_ID R) true w).

Definition catalogExchange (R : Runtime) (w : World R) : Exchange :=
  exchange (RetrieveCatalogObject (CATALOG_ITEM_ID R) true)
           (thrown (catalogLookup R w)).

(** The variation list of the configured catalog item: empty when the
    object, its item data or the list itself is absent. *)
Definition variationList (response : RetrieveCatalogObjectResponse)
    : list CatalogItemVariation :=
  match object response with
  | Some item =>
      match itemData item with
      | Some data =>
          match variations data with
          | Some l => l
          | None => []
          end
      | None => []
      end
  | None => []
  end.

(** The variation a request in world [w] is resolved to. *)
Definition resolvedVariation (R : Runtime) (w : World R) : option string :=
  match catalogLookup R w with
  | Fulfilled response =>
      match variationList response with
      | first :: _ => Some (variation_id first)
      | [] => None
      end
  | Rejected _ => None
  end.

Definition searchOf (n : string) : RemoteCall :=
  SearchCustomers {| search_referenceId_exact := customerReferenceId n |}.

(** The exchanges of [getOrCreateCustomer] and the value it returns. *)
Inductive CustomerResolution (name : option string)
    : list Exchange -> option string -> Prop :=
| CustomerNotAString :
    name = None ->
    CustomerResolution name [] None
| CustomerSearchThrew n e :
    name = Some n ->
    CustomerResolution name [exchange (searchOf n) (Some e)] None
| CustomerFound n first :
    name = Some n ->
    CustomerResolution name [exchange (searchOf n) None] (customer_id first)
| CustomerCreateThrew n rq e :
    name = Some n ->
    referenceId rq = customerReferenceId n ->
    givenName rq = or_else (hd EmptyString (split_space (trim n))) n ->
    familyName rq = join_space (tl (split_space (trim n))) ->
    CustomerResolution name
      [exchange (searchOf n) None; exchange (CreateCustomer rq) (Some e)] None
| CustomerCreated n rq created :
    name = Some n ->
    referenceId rq = customerReferenceId n ->
    givenName rq = or_else (hd EmptyString (split_space (trim n))) n ->
    familyName rq = join_space (tl (split_space (trim n))) ->
    CustomerResolution name
      [exchange (searchOf n) None; exchange (CreateCustomer rq) None]
      (match created with Some c => customer_id c | None => None end).

(** [item.name + (item.comment ? ` - ${item.comment}` : '')] *)
Definition noteOf (item : Item) : string :=
  match comment item with
  | Some EmptyString | None => name item
  | Some text => name item ++ " - " ++ text
  end.

(** A line item of the order request, against the request item it is made
    from. *)
Record LineItemOf (v : string) (item : Item) (line : OrderLineItem) : Prop := {
  line_cents :
    Math_round (price item * 100)%float
    = Some (money_amount (basePriceMoney line));
  line_currency : currency (basePriceMoney line) = "USD";
  line_variation : catalogObjectId line = v;
  line_quantity_of : line_quantity line = String_ (quantity item);
  line_note_of : line_note line = noteOf item
}.

Arguments line_cents {v item line} _.
Arguments line_currency {v item line} _.
Arguments line_variation {v item line} _.

Record OrderRequestOf (R : Runtime) (b : CheckoutRequest) (v : string)
    (cid : option string) (rq : CreateOrderRequest) : Prop := {
  order_lines :
    exists its, items b = Some its
                /\ Forall2 (LineItemOf v) its (lineItems (order rq));
  order_customer : order_customerId (order rq) = cid;
  order_location : order_locationId (order rq) = LOCATION_ID R;
  order_state : state (order rq) = "OPEN"
}.

Arguments order_lines {R b v cid rq} _.
Arguments order_customer {R b v cid rq} _.

Record PaymentRequestOf (R : Runtime) (b : CheckoutRequest)
    (cid oid : option string) (rq : CreatePaymentRequest) : Prop := {
  payment_cents :
    Math_round (amount b * 100)%float
    = Some (money_amount (amountMoney rq));
  payment_currency : currency (amountMoney rq) = "USD";
  payment_customer : payment_customerId rq = cid;
  payment_order : payment_orderId rq = oid;
  payment_source : payment_sourceId rq = sourceId b;
  payment_location : payment_locationId rq = LOCATION_ID R;
  payment_note_of : payment_note rq = "Pickup: " ++ pickupDate b
}.

Arguments payment_cents {R b cid oid rq} _.
Arguments payment_currency {R b cid oid rq} _.
Arguments payment_customer {R b cid oid rq} _.

(** The exchanges of the [try] block after the customer is resolved, with
    the status and body the handler answers with. *)
Inductive CheckoutTail (R : Runtime) (b : CheckoutRequest) (v : string)
    (cid : option string) : list Exchange -> Z -> JsonBody -> Prop :=
| TailItemsNotAnArray :
    items b = None ->
    CheckoutTail R b v cid [] 500
      (FailureBody (faultMessage R MapOfNonArray))
| TailPriceNotFinite its it :
    items b = Some its -> In it its ->
    Math_round (price it * 100)%float = None ->
    CheckoutTail R b v cid [] 500
      (FailureBody (faultMessage R BigIntOfNonInteger))
| TailOrderThrew orq e :
    OrderRequestOf R b v cid orq ->
    CheckoutTail R b v cid [exchange (CreateOrder orq) (Some e)] 500
      (FailureBody (errorText e))
| TailAmountNotFinite orq :
    OrderRequestOf R b v cid orq ->
    Math_round (amount b * 100)%float = None ->
    CheckoutTail R b v cid [exchange (CreateOrder orq) None] 500
      (FailureBody (faultMessage R BigIntOfNonInteger))
| TailOrderMissing orq :
    OrderRequestOf R b v cid orq ->
    CheckoutTail R b v cid [exchange (CreateOrder orq) None] 500
      (FailureBody (faultMessage R PropertyOfUndefined))
| TailPaymentThrew orq prq oid e :
    OrderRequestOf R b v cid orq ->
    PaymentRequestOf R b cid oid prq ->
    CheckoutTail R b v cid
      [exchange (CreateOrder orq) None; exchange (CreatePayment prq) (Some e)]
      500 (FailureBody (errorText e))
| TailPaymentMissing orq prq oid :
    OrderRequestOf R b v cid orq ->
    PaymentRequestOf R b cid oid prq ->
    CheckoutTail R b v cid
      [exchange (CreateOrder orq) None; exchange (CreatePayment prq) None]
      500 (FailureBody (faultMessage R PropertyOfUndefined))
| TailPaid orq prq oid p :
    OrderRequestOf R b v cid orq ->
    PaymentRequestOf R b cid oid prq ->
    CheckoutTail R b v cid
      [exchange (CreateOrder orq) None; exchange (CreatePayment prq) None]
      200 (SuccessBody (payment_id p) oid (payment_status p)).

(** The runs of the handler: the five ways a request ends. *)
Inductive Run (R : Runtime) (req : Req) (w : World R)
    : outcome unit * St R -> Prop :=
| RunPreflight st :
    method req = "OPTIONS" ->
    calls st = [] -> world st = w ->
    Responded st 200 Ended ->
    Run R req w (Fulfilled tt, st)
| RunNotAllowed st :
    method req <> "OPTIONS" -> method req <> "POST" ->
    calls st = [] -> world st = w ->
    Responded st 405 (Json (ErrorBody "Method not allowed")) ->
    Run R req w (Fulfilled tt, st)
| RunNoBody st :
    method req = "POST" -> body req = None ->
    calls st = [] -> world st = w ->
    sent (res st) = None ->
    Run R req w (Rejected (faultError R DestructureNonObject), st)
| RunUnresolved st b :
    method req = "POST" -> body req = Some b ->
    resolvedVariation R w = None \/ resolvedVariation R w = Some EmptyString ->
    calls st = [catalogExchange R w] ->
    Responded st 500 (Json (FailureBody "Item variation not configured")) ->
    Run R req w (Fulfilled tt, st)
| RunCheckout st b v cust cid tail code answer :
    method req = "POST" -> body req = Some b ->
    resolvedVariation R w = Some v -> v <> EmptyString ->
    calls st = catalogExchange R w :: cust ++ tail ->
    CustomerResolution (customerName b) cust cid ->
    CheckoutTail R b v cid tail code answer ->
    Responded st code (Json answer) ->
    Run R req w (Fulfilled tt, st).

(** Every money value of a call is in US dollars. *)
Definition usdOnly (c : RemoteCall) : Prop :=
  match c with
  | CreateOrder rq =>
      Forall (fun l => currency (basePriceMoney l) = "USD")
             (lineItems (order rq))
  | CreatePayment rq => currency (amountMoney rq) = "USD"
  | _ => True
  end.

(** [z] is the exact value of the finite number [x] rounded to the nearest
    integer, a tie going up: [z - 1/2 <= x < z + 1/2]. *)
Definition roundsHalfUp (x : float) (z : Z) : Prop :=
  (inject_Z z - (1 # 2) <= exact (Prim2SF x))%Q
  /\ (exact (Prim2SF x) < inject_Z z + (1 # 2))%Q.

(** ** The customer key as the specification words it *)

(** Lower case, leading and trailing white space trimmed, inner runs of
    white space collapsed to one underscore each. *)
Definition normalizedKey (customerName : string) : string :=
  replaceWhiteSpaceRuns (trim (toLowerCase customerName)).

Definition startsWithWhiteSpace (s : string) : bool :=
  match s with
  | String c _ => isWhiteSpace c
  | EmptyString => false
  end.

Fixpoint endsWithWhiteSpace (s : string) : bool :=
  match s with
  | EmptyString => false
  | String c EmptyString => isWhiteSpace c
  | String _ r => endsWithWhiteSpace r
  end.

Definition underscoreIf (b : bool) : string :=
  if b then "_" else EmptyString.

(** The first structured error detail of a thrown error, when it has one. *)
Definition firstDetail (error : JsError) : option string :=
  match errors error with
  | Some (first :: _) =>
      match detail first with
      | Some (String c r) => Some (String c r)
      | _ => None
      end
  | _ => None
  end.

(** The field of a request that names the customer, if the call has one. *)
Definition attachedCustomer (c : RemoteCall) : option string :=
  match c with
  | CreateOrder rq => order_customerId (order rq)
  | CreatePayment rq => payment_customerId rq
  | _ => None
  end.

(** A customer call is made under the reference id [key]. *)
Definition keyedBy (key : string) (c : RemoteCall) : Prop :=
  match c with
  | SearchCustomers rq => search_referenceId_exact rq = key
  | CreateCustomer rq => referenceId rq = key
  | _ => True
  end.

(** ** A scripted platform, for running the handler on examples *)

Module Scripted.

(** What each of the five calls answers; the world counts the UUIDs drawn. *)
Record Script := {
  catalogAnswer : outcome RetrieveCatalogObjectResponse;
  searchAnswer : outcome SearchCustomersResponse;
  createCustomerAnswer : outcome CreateCustomerResponse;
  orderAnswer : outcome CreateOrderResponse;
  paymentAnswer : outcome CreatePaymentResponse
}.

Definition engineMessage (f : Fault) : string :=
  match f with
  | DestructureNonObject =>
      "Cannot destructure property 'sourceId' of 'req.body' as it is undefined."
  | ToLowerCaseOfNonString =>
      "Cannot read properties of undefined (reading 'toLowerCase')"
  | MapOfNonArray => "Cannot read properties of undefined (reading 'map')"
  | BigIntOfNonInteger =>
      "The number NaN cannot be converted to a BigInt because it is not an integer"
  | PropertyOfUndefined => "Cannot read properties of undefined (reading 'id')"
  end.

Definition platform (sc : Script) : Runtime :=
  {| World := nat;
     retrieveCatalogObject := fun _ _ w => (catalogAnswer sc, w);
     searchCustomers := fun _ w => (searchAnswer sc, w);
     createCustomer := fun _ w => (createCustomerAnswer sc, w);
     createOrder := fun _ w => (orderAnswer sc, w);
     createPayment := fun _ w => (paymentAnswer sc, w);
     randomUUID := fun w => ("uuid-" ++ String_ (Z.of_nat w), S w);
     LOCATION_ID := "LOC1";
     CATALOG_ITEM_ID := "ITEM1";
     faultMessage := engineMessage |}.

Definition apiError (text : string) : JsError :=
  {| errors := Some [ {| detail := Some text |} ];
     message := "Response status code was not ok" |}.

(** A catalog item with the single variation VAR1, no customer on file. *)
Definition happy : Script :=
  {| catalogAnswer :=
       Fulfilled
         {| object :=
              Some {| itemData :=
                        Some {| variations :=
                                  Some [ {| variation_id := "VAR1" |} ] |} |} |};
     searchAnswer := Fulfilled {| customers := None |};
     createCustomerAnswer :=
       Fulfilled {| customer := Some {| customer_id := Some "CUST1" |} |};
     orderAnswer :=
       Fulfilled {| created_order := Some {| order_id := Some "ORDER1" |} |};
     paymentAnswer :=
       Fulfilled
         {| payment := Some {| payment_id := Some "PAY1";
                               payment_status := Some "COMPLETED" |} |} |}.

Definition noVariations : Script :=
  {| catalogAnswer :=
       Fulfilled
         {| object := Some {| itemData := Some {| variations := Some [] |} |} |};
     searchAnswer := searchAnswer happy;
     createCustomerAnswer := createCustomerAnswer happy;
     orderAnswer := orderAnswer happy;
     paymentAnswer := paymentAnswer happy |}.

Definition customerSearchDown : Script :=
  {| catalogAnswer := catalogAnswer happy;
     searchAnswer := Rejected (apiError "Customer search unavailable");
     createCustomerAnswer := createCustomerAnswer happy;
     orderAnswer := orderAnswer happy;
     paymentAnswer := paymentAnswer happy |}.

Definition orderRefused : Script :=
  {| catalogAnswer := catalogAnswer happy;
     searchAnswer := searchAnswer happy;
     createCustomerAnswer := createCustomerAnswer happy;
     orderAnswer := Rejected (apiError "Order refused");
     paymentAnswer := paymentAnswer happy |}.

Definition cardDeclined : Script :=
  {| catalogAnswer := catalogAnswer happy;
     searchAnswer := searchAnswer happy;
     createCustomerAnswer := createCustomerAnswer happy;
     orderAnswer := orderAnswer happy;
     paymentAnswer := Rejected (apiError "Card declined") |}.

Definition latte : Item :=
  {| name := "Latte"; quantity := 2; price := 5%float; comment := None |}.

(** The request of the end-to-end scenario. *)
Definition annLeeBody : CheckoutRequest :=
  {| sourceId := "tok1";
     amount := 10%float;
     customerName := Some "Ann Lee";
     pickupDate := "2024-06-01";
     items := Some [latte] |}.

Definition annLee : Req := {| method := "POST"; body := Some annLeeBody |}.

(** The same request without its [items]. *)
Definition noItemsBody : CheckoutRequest :=
  {| sourceId := "tok1";
     amount := 10%float;
     customerName := Some "Ann Lee";
     pickupDate := "2024-06-01";
     items := None |}.

Definition annLeeNoItems : Req :=
  {| method := "POST"; body := Some noItemsBody |}.

(** The calls the scenario is expected to make. *)
Definition annLeeSearch : RemoteCall :=
  SearchCustomers {| search_referenceId_exact := "ann_lee" |}.

Definition annLeeCreate : RemoteCall :=
  CreateCustomer {| givenName := "Ann";
                    familyName := "Lee";
                    referenceId := "ann_lee";
                    customer_idempotencyKey := "uuid-0" |}.

Definition annLeeOrder : CreateOrderRequest :=
  {| order :=
       {| order_locationId := "LOC1";
          order_customerId := Some "CUST1";
          lineItems :=
            [ {| line_quantity := "2";
                 catalogObjectId := "VAR1";
                 basePriceMoney := {| money_amount := 500;
                                      currency := "USD" |};
                 line_note := "Latte" |} ];
          state := "OPEN" |};
     order_idempotencyKey := "uuid-1" |}.

Definition annLeePayment : CreatePaymentRequest :=
  {| payment_sourceId := "tok1";
     payment_idempotencyKey := "uuid-2";
     amountMoney := {| money_amount := 1000; currency := "USD" |};
     payment_locationId := "LOC1";
     payment_orderId := Some "ORDER1";
     payment_customerId := Some "CUST1";
     payment_note := "Pickup: 2024-06-01" |}.

Definition getRequest : Req := {| method := "GET"; body := None |}.

End Scripted.

(** ** Further vocabulary for runs *)

(** The step of the handler a call belongs to, in the order of the source. *)
Definition stage (c : RemoteCall) : nat :=
  match c with
  | RetrieveCatalogObject _ _ => 0
  | SearchCustomers _ => 1
  | CreateCustomer _ => 2
  | CreateOrder _ => 3
  | CreatePayment _ => 4
  end.

Definition stages {R : Runtime} (st : St R) : list nat :=
  map (fun x => stage (call x)) (calls st).

(** Every character of [s] satisfies [p]. *)
Fixpoint every (p : ascii -> bool) (s : string) : bool :=
  match s with
  | EmptyString => true
  | String c r => p c && every p r
  end.


Definition isSpace (c : ascii) : bool := Ascii.eqb c " ".

(** The line a failed resolver writes to the console. *)
Definition customerErrorLine (e : JsError) : ConsoleLine :=
  ErrorLine "Customer error:" (errorText e).

Definition catalogErrorLine (e : JsError) : ConsoleLine :=
  ErrorLine "Catalog error:" (errorText e).

(** ** More scripted requests and platforms *)

Module Cases.

Import Scripted.

Definition optionsRequest : Req := {| method := "OPTIONS"; body := None |}.

Definition postWithoutBody : Req := {| method := "POST"; body := None |}.

(** An item whose price is missing. *)
Definition unpriced : Item :=
  {| name := "Mocha"; quantity := 1; price := nan; comment := Some "hot" |}.

Definition unpricedBody : CheckoutRequest :=
  {| sourceId := "tok1";
     amount := 10%float;
     customerName := Some "Ann Lee";
     pickupDate := "2024-06-01";
     items := Some [latte; unpriced] |}.

Definition unpricedRequest : Req :=
  {| method := "POST"; body := Some unpricedBody |}.

(** A request whose amount is missing. *)
Definition noAmountBody : CheckoutRequest :=
  {| sourceId := "tok1";
     amount := nan;
     customerName := Some "Ann Lee";
     pickupDate := "2024-06-01";
     items := Some [latte] |}.

Definition noAmountRequest : Req :=
  {| method := "POST"; body := Some noAmountBody |}.

(** A request whose customer name is missing. *)
Definition anonymousBody : CheckoutRequest :=
  {| sourceId := "tok1";
     amount := 10%float;
     customerName := None;
     pickupDate := "2024-06-01";
     items := Some [latte] |}.

Definition anonymousRequest : Req :=
  {| method := "POST"; body := Some anonymousBody |}.

Definition anonymousOrder : CreateOrderRequest :=
  {| order :=
       {| order_locationId := "LOC1";
          order_customerId := None;
          lineItems := lineItems (order annLeeOrder);
          state := "OPEN" |};
     order_idempotencyKey := "uuid-0" |}.

(** The customer is already on file. *)
Definition onFile : Script :=
  {| catalogAnswer := catalogAnswer happy;
     searchAnswer :=
       Fulfilled {| customers := Some [ {| customer_id := Some "CUST7" |};
                                        {| customer_id := Some "CUST9" |} ] |};
     createCustomerAnswer := createCustomerAnswer happy;
     orderAnswer := orderAnswer happy;
     paymentAnswer := paymentAnswer happy |}.

Definition catalogDown : Script :=
  {| catalogAnswer := Rejected (apiError "Catalog unavailable");
     searchAnswer := searchAnswer happy;
     createCustomerAnswer := createCustomerAnswer happy;
     orderAnswer := orderAnswer happy;
     paymentAnswer := paymentAnswer happy |}.

End Cases.

(** * Properties *)

Lemma or_else_empty (a : string) : or_else a EmptyString = a.
Proof. destruct a; reflexivity. Qed.

Lemma append_empty_r (a : string) : (a ++ EmptyString)%string = a.
Proof. induction a as [|c a IH]; simpl; [reflexivity | now rewrite IH]. Qed.

Lemma firstVariationId_variationList (response : RetrieveCatalogObjectResponse) :
  firstVariationId (object response)
  = match variationList response with
    | first :: _ => Some (variation_id first)
    | [] => None
    end.
Proof.
  unfold firstVariationId, variationList.
  destruct (object response) as [item|]; [|reflexivity].
  destruct (itemData item) as [data|]; [|reflexivity].
  destruct (variations data) as [[|first l]|]; reflexivity.
Qed.

Section Steps.

Variable R : Runtime.

Ltac js_unfold :=
  unfold bind, try_catch, await, crypto_randomUUID, console_error,
         res_json, res_status, res_end, res_setHeader, modify_res,
         BigInt, raise, throw, ret; cbn.

Lemma getOrCreateCustomer_spec (name : option string) (s : St R) :
  exists cid cust s',
    getOrCreateCustomer R name s = (Fulfilled cid, s')
    /\ CustomerResolution name cust cid
    /\ calls s' = (calls s ++ cust)%list
    /\ res s' = res s.
Proof.
  unfold getOrCreateCustomer.
  destruct name as [n|]; js_unfold.
  - destruct (searchCustomers R _ (world s)) as [[response|e] w1]; cbn.
    + destruct (customers response) as [[|first rest]|]; cbn.
      2: { eexists _, _, _; split; [reflexivity|]; cbn.
           split; [now apply CustomerFound with (n := n)|]. split; reflexivity. }
      all: destruct (randomUUID R w1) as [uuid w2]; cbn.
      all: destruct (createCustomer R _ w2) as [[created|e] w3]; cbn.
      all: try destruct (customer created) as [c|] eqn:Ec; cbn.
      all: eexists _, _, _; (split; [reflexivity|]); cbn.
      all: rewrite <- app_assoc; cbn.
      all: (split; [|split; reflexivity]).
      1, 4: apply CustomerCreated with (created := Some c); cbn;
        auto using or_else_empty.
      1, 3: apply CustomerCreated with (created := None); cbn; auto using or_else_empty.
      1, 2: apply CustomerCreateThrew; cbn; auto using or_else_empty.
    + eexists _, _, _; split; [reflexivity|]; cbn.
      split; [now apply CustomerSearchThrew|split; reflexivity].
  - eexists None, [], _. rewrite app_nil_r.
    split; [reflexivity|split; [now constructor|split; reflexivity]].
Qed.

Lemma lineItem_spec (v : string) (it : Item) (s : St R) :
  (exists li, lineItem R v it s = (Fulfilled li, s) /\ LineItemOf v it li)
  \/ (Math_round (price it * 100)%float = None
      /\ lineItem R v it s = (Rejected (faultError R BigIntOfNonInteger), s)).
Proof.
  unfold lineItem.
  destruct (Math_round (price it * 100)%float) as [cents|] eqn:Ecents;
    js_unfold.
  - left. eexists; split; [reflexivity|].
    constructor; cbn; try reflexivity; try assumption.
    unfold noteOf. destruct (comment it) as [[|c r]|];
      auto using append_empty_r.
  - right. split; reflexivity.
Qed.

Lemma mapJs_lineItem_spec (v : string) (its : list Item) (s : St R) :
  (exists ls, mapJs (lineItem R v) its s = (Fulfilled ls, s)
              /\ Forall2 (LineItemOf v) its ls)
  \/ (exists it, In it its
                 /\ Math_round (price it * 100)%float = None
                 /\ mapJs (lineItem R v) its s
                    = (Rejected (faultError R BigIntOfNonInteger), s)).
Proof.
  induction its as [|it its IH]; cbn [mapJs].
  - left. exists []. split; [reflexivity|constructor].
  - destruct (lineItem_spec v it s) as [(li & Eli & Hli)|(Hnone & Eli)].
    + destruct IH as [(ls & Els & Hls)|(bad & Hin & Hnone & Els)].
      * left. exists (li :: ls). unfold bind. rewrite Eli, Els.
        split; [reflexivity|now constructor].
      * right. exists bad. unfold bind. rewrite Eli, Els. cbn. auto.
    + right. exists it. unfold bind. rewrite Eli. cbn. auto.
Qed.

Lemma guarded_checkout_spec (b : CheckoutRequest) (v : string) (s : St R) :
  res s = {| headers := corsHeaders; statusCode := 200; sent := None |} ->
  exists cust cid tail code answer st,
    try_catch (checkout R b v) (catchBlock R) s = (Fulfilled tt, st)
    /\ calls st = (calls s ++ cust ++ tail)%list
    /\ CustomerResolution (customerName b) cust cid
    /\ CheckoutTail R b v cid tail code answer
    /\ Responded st code (Json answer).
Proof.
  intros Hres.
  destruct (getOrCreateCustomer_spec (customerName b) s)
    as (cid & cust & s1 & Ecust & Hcust & Hcalls & Hres1).
  rewrite Hres in Hres1.
  exists cust, cid.
  unfold checkout, try_catch. unfold bind at 1. rewrite Ecust.
  unfold bind at 1. unfold items_map.
  assert (Hnil : calls s1 = (calls s ++ cust ++ [])%list)
    by now rewrite app_nil_r.
  destruct (items b) as [its|] eqn:Eits;
    [destruct (mapJs_lineItem_spec v its s1)
       as [(ls & -> & Hls)|(bad & Hin & Hnone & ->)]|].
  1: { js_unfold.
       destruct (randomUUID R (world s1)) as [orderKey w2]; cbn.
       match goal with
       | |- context [createOrder R ?rq w2] => set (orq := rq)
       end.
       assert (Horq : OrderRequestOf R b v cid orq).
       { constructor; cbn; try reflexivity. exists its. auto. }
       destruct (createOrder R orq w2) as [[created|e] w3]; cbn.
       1: destruct (randomUUID R w3) as [paymentKey w4]; cbn.
       1: destruct (Math_round (amount b * 100)%float) as [cents|] eqn:Ecents;
            cbn.
       1: destruct (created_order created) as [o|]; cbn.
       1: match goal with
          | |- context [createPayment R ?rq w4] => set (prq := rq)
          end.
       1: assert (Hprq : PaymentRequestOf R b cid (order_id o) prq)
            by (constructor; cbn; try reflexivity; assumption).
       1: destruct (createPayment R prq w4) as [[paid|e] w5]; cbn.
       1: destruct (payment paid) as [p|]; cbn.
       all: eexists _, _, _, _; (split; [reflexivity|]); cbn.
       all: rewrite Hcalls, Hres1, <- !app_assoc; cbn.
       all: (split; [reflexivity|split; [exact Hcust|]]).
       all: (split; [|reflexivity]).
       all: econstructor; eassumption. }
  all: js_unfold.
  all: eexists _, _, _, _; (split; [reflexivity|]); cbn.
  all: rewrite Hres1; (split; [exact Hnil|split; [exact Hcust|]]).
  all: (split; [|reflexivity]).
  - eapply TailPriceNotFinite; eassumption.
  - now apply TailItemsNotAnArray.
Qed.

Lemma getItemVariationId_spec (s : St R) :
  exists st,
    getItemVariationId R s = (Fulfilled (resolvedVariation R (world s)), st)
    /\ calls st = (calls s ++ [catalogExchange R (world s)])%list
    /\ res st = res s.
Proof.
  unfold getItemVariationId, resolvedVariation, catalogExchange, catalogLookup.
  js_unfold.
  destruct (retrieveCatalogObject R (CATALOG_ITEM_ID R) true (world s))
    as [[response|e] w1]; cbn.
  - rewrite firstVariationId_variationList.
    eexists; split; [reflexivity|]. split; reflexivity.
  - eexists; split; [reflexivity|]. split; reflexivity.
Qed.

(** Every run of the handler is one of the runs of [Run]. *)
Lemma run_sound (req : Req) (w : World R) : Run R req w (run R req w).
Proof.
  unfold run, handler.
  unfold bind at 1 2 3, res_setHeader, modify_res.
  cbn -[getItemVariationId try_catch String.eqb bind].
  destruct (String.eqb_spec (method req) "OPTIONS") as [Hopt|Hopt].
  { now apply RunPreflight. }
  destruct (String.eqb_spec (method req) "POST") as [Hpost|Hpost];
    cbn [negb].
  2: { now apply RunNotAllowed. }
  destruct (body req) as [b|] eqn:Ebody.
  2: { now apply RunNoBody. }
  unfold bind at 1.
  match goal with
  | |- context [getItemVariationId R ?s] =>
      destruct (getItemVariationId_spec s) as (s1 & -> & Hcalls & Hres)
  end.
  cbn in Hcalls, Hres |- *.
  destruct (resolvedVariation R w) as [[|c r]|] eqn:Ev.
  1, 3: eapply RunUnresolved; eauto; unfold Responded; cbn; now rewrite Hres.
  destruct (guarded_checkout_spec b (String c r) s1 Hres)
    as (cust & cid & tail & code & answer & st & -> & Hst & Hcust & Htail & Hresp).
  rewrite Hcalls in Hst. cbn in Hst.
  eapply RunCheckout; eauto. discriminate.
Qed.

End Steps.

Lemma customer_calls_only {name : option string} {cust : list Exchange}
    {cid : option string} :
  CustomerResolution name cust cid ->
  Forall (fun x => isCustomerCall (call x) = true) cust.
Proof. intros H; destruct H; repeat constructor. Qed.

Lemma customer_failure_null {name : option string} {cust : list Exchange}
    {cid : option string} :
  CustomerResolution name cust cid ->
  Exists (fun x => failed x = true) cust -> cid = None.
Proof.
  intros H Hex; destruct H; try reflexivity;
    repeat match goal with
           | H : Exists _ _ |- _ => inversion H; subst; clear H
           | H : failed _ = true |- _ => discriminate H
           end.
Qed.

(** X4. A POST without a body object: the destructuring on line 74 throws
    outside the [try] block, so the handler rejects with nothing sent and
    nothing called.  The claims about POST requests below are about requests
    that carry a body. *)
Lemma post_without_body (R : Runtime) (req : Req) (w : World R) :
  method req = "POST" -> body req = None ->
  fst (run R req w) = Rejected (faultError R DestructureNonObject)
  /\ sent (res (snd (run R req w))) = None
  /\ calls (snd (run R req w)) = [].
Proof.
  intros Hpost Hbody.
  pose proof (run_sound R req w) as Hrun.
  destruct (run R req w) as [o st]; cbn [fst snd].
  inversion Hrun; subst; try congruence. auto.
Qed.

(** C8. A request whose method is neither POST nor OPTIONS is answered with
    status 405 and the body {error: "Method not allowed"}; no call is made
    to the platform and the world is left as it was. *)
Theorem method_not_allowed (R : Runtime) (req : Req) (w : World R) :
  method req <> "POST" -> method req <> "OPTIONS" ->
  fst (run R req w) = Fulfilled tt
  /\ statusCode (res (snd (run R req w))) = 405
  /\ sent (res (snd (run R req w)))
     = Some (Json (ErrorBody "Method not allowed"))
  /\ calls (snd (run R req w)) = []
  /\ world (snd (run R req w)) = w.
Proof.
  intros Hpost Hopt.
  pose proof (run_sound R req w) as Hrun.
  destruct (run R req w) as [o st]; cbn [fst snd].
  inversion Hrun; subst; try contradiction.
  match goal with H : Responded _ _ _ |- _ => rewrite H end.
  cbn. auto.
Qed.

Lemma errorText_firstDetail (error : JsError) :
  errorText error
  = match firstDetail error with
    | Some d => d
    | None => message error
    end.
Proof.
  unfold errorText, firstDetail.
  destruct (errors error) as [[|[[[|c r]|]] rest]|]; reflexivity.
Qed.

(** Membership in the calls of a checkout run, split by the step that made
    the call. *)
Lemma in_checkout_calls (x cat : Exchange) (cust tail : list Exchange) :
  In x (cat :: cust ++ tail) -> x = cat \/ In x cust \/ In x tail.
Proof.
  intros [->|Hin]; [now left|].
  apply in_app_or in Hin. tauto.
Qed.

Ltac in_tail :=
  repeat match goal with
         | H : In _ (_ :: _) |- _ => destruct H as [H|H]
         | H : In _ [] |- _ => destruct H
         | H : exchange _ _ = exchange _ _ |- _ => inversion H; subst; clear H
         | H : _ = exchange _ _ |- _ => subst
         | H : exchange _ _ = _ |- _ => subst
         end.

(** C3. On a POST, when the catalog lookup throws or yields no variations,
    the handler answers 500 with {success:false, error:"Item variation not
    configured"}; the lookup is the only call made, so no customer, order
    or payment call is made. *)
Theorem catalog_unresolved_fails_fast (R : Runtime) (req : Req)
    (b : CheckoutRequest) (w : World R) :
  method req = "POST" -> body req = Some b ->
  match catalogLookup R w with
  | Fulfilled response => variationList response = []
  | Rejected _ => True
  end ->
  fst (run R req w) = Fulfilled tt
  /\ statusCode (res (snd (run R req w))) = 500
  /\ sent (res (snd (run R req w)))
     = Some (Json (FailureBody "Item variation not configured"))
  /\ calls (snd (run R req w)) = [catalogExchange R w]
  /\ (forall x, In x (calls (snd (run R req w))) ->
        isCustomerCall (call x) = false
        /\ isOrderCall (call x) = false
        /\ isPaymentCall (call x) = false).
Proof.
  intros Hpost Hbody Hlookup.
  assert (Hnone : resolvedVariation R w = None).
  { unfold resolvedVariation.
    destruct (catalogLookup R w) as [response|e]; [now rewrite Hlookup|easy]. }
  pose proof (run_sound R req w) as Hrun.
  destruct (run R req w) as [o st]; cbn [fst snd].
  inversion Hrun; subst; try congruence.
  match goal with H : Responded _ _ _ |- _ => rewrite H end.
  match goal with H : calls st = _ |- _ => rewrite H end.
  cbn. do 4 (split; [reflexivity|]).
  intros y [<-|[]]. cbn. auto.
Qed.

(** C4. When the order-creation call throws, no payment call is made, and
    the handler answers 500 with {success:false, error}, where [error] is
    the first structured detail of the thrown error, or its message when it
    has none. *)
Theorem order_failure_stops_before_payment (R : Runtime) (req : Req)
    (w : World R) (rq : CreateOrderRequest) (e : JsError) :
  In (exchange (CreateOrder rq) (Some e)) (calls (snd (run R req w))) ->
  (forall x, In x (calls (snd (run R req w))) ->
     isPaymentCall (call x) = false)
  /\ fst (run R req w) = Fulfilled tt
  /\ statusCode (res (snd (run R req w))) = 500
  /\ sent (res (snd (run R req w)))
     = Some (Json (FailureBody match firstDetail e with
                               | Some d => d
                               | None => message e
                               end)).
Proof.
  intros Hin.
  pose proof (run_sound R req w) as Hrun.
  destruct (run R req w) as [o st]; cbn [fst snd] in *.
  inversion Hrun; subst;
    match goal with H : calls st = _ |- _ => rewrite H in * end;
    try solve [cbn in Hin; intuition discriminate].
  match goal with H : Responded _ _ _ |- _ => rewrite H end.
  match goal with
  | H : CustomerResolution _ _ _ |- _ =>
      pose proof (customer_calls_only H) as Hcust
  end.
  rewrite Forall_forall in Hcust.
  apply in_checkout_calls in Hin. destruct Hin as [Hin|[Hin|Hin]].
  - discriminate Hin.
  - apply Hcust in Hin. discriminate Hin.
  - match goal with H : CheckoutTail _ _ _ _ _ _ _ |- _ => inversion H end;
      subst; in_tail; try discriminate.
    rewrite <- errorText_firstDetail. cbn.
    split; [|repeat split; reflexivity].
    intros x Hx. apply in_checkout_calls in Hx.
    destruct Hx as [->|[Hx|Hx]];
      [reflexivity| apply Hcust in Hx; now destruct (call x) | in_tail; reflexivity].
Qed.

(** C5. When the payment-creation call throws, the order was created by the
    call just before it, the failed payment call is the last call of the
    run (nothing cancels, updates or reads the order afterwards, and no
    earlier call is an order or payment call), and the handler answers 500
    with the thrown detail. *)
Theorem payment_failure_leaves_order (R : Runtime) (req : Req)
    (w : World R) (prq : CreatePaymentRequest) (e : JsError) :
  In (exchange (CreatePayment prq) (Some e)) (calls (snd (run R req w))) ->
  (exists before orq,
     calls (snd (run R req w))
     = (before ++ [exchange (CreateOrder orq) None;
                   exchange (CreatePayment prq) (Some e)])%list
     /\ forall x, In x before ->
          isOrderCall (call x) = false /\ isPaymentCall (call x) = false)
  /\ fst (run R req w) = Fulfilled tt
  /\ statusCode (res (snd (run R req w))) = 500
  /\ sent (res (snd (run R req w)))
     = Some (Json (FailureBody match firstDetail e with
                               | Some d => d
                               | None => message e
                               end)).
Proof.
  intros Hin.
  pose proof (run_sound R req w) as Hrun.
  destruct (run R req w) as [o st]; cbn [fst snd] in *.
  inversion Hrun; subst;
    match goal with H : calls st = _ |- _ => rewrite H in * end;
    try solve [cbn in Hin; intuition discriminate].
  match goal with H : Responded _ _ _ |- _ => rewrite H end.
  match goal with
  | H : CustomerResolution _ _ _ |- _ =>
      pose proof (customer_calls_only H) as Hcust
  end.
  rewrite Forall_forall in Hcust.
  apply in_checkout_calls in Hin. destruct Hin as [Hin|[Hin|Hin]].
  - discriminate Hin.
  - apply Hcust in Hin. discriminate Hin.
  - match goal with H : CheckoutTail _ _ _ _ _ _ _ |- _ => inversion H end;
      subst; in_tail; try discriminate.
    rewrite <- errorText_firstDetail. cbn.
    split; [|repeat split; reflexivity].
    exists (catalogExchange R w :: cust), orq. split; [reflexivity|].
    intros x [<-|Hx]; [split; reflexivity|].
    apply Hcust in Hx. now destruct (call x).
Qed.

Lemma lines_usd (v : string) (its : list Item) (ls : list OrderLineItem) :
  Forall2 (LineItemOf v) its ls ->
  Forall (fun l => currency (basePriceMoney l) = "USD"
                   /\ catalogObjectId l = v) ls.
Proof.
  induction 1 as [|it l its ls Hl _ IH]; constructor; [|exact IH].
  split; [apply (line_currency Hl)|apply (line_variation Hl)].
Qed.

(** C9. Every money value the handler sends carries the currency USD: the
    base price of every line item of every order request and the amount of
    every payment request, whatever the request. *)
Theorem money_is_usd (R : Runtime) (req : Req) (w : World R) (x : Exchange) :
  In x (calls (snd (run R req w))) -> usdOnly (call x).
Proof.
  intros Hin.
  pose proof (run_sound R req w) as Hrun.
  destruct (run R req w) as [o st]; cbn [fst snd] in *.
  inversion Hrun; subst;
    match goal with H : calls st = _ |- _ => rewrite H in * end;
    try solve [cbn in Hin; intuition (subst; exact I)].
  match goal with
  | H : CustomerResolution _ _ _ |- _ =>
      pose proof (customer_calls_only H) as Hcust
  end.
  rewrite Forall_forall in Hcust.
  apply in_checkout_calls in Hin. destruct Hin as [->|[Hin|Hin]].
  - exact I.
  - apply Hcust in Hin. now destruct (call x).
  - match goal with H : CheckoutTail _ _ _ _ _ _ _ |- _ => inversion H end;
      subst; in_tail; cbn;
      repeat match goal with
             | H : OrderRequestOf _ _ _ _ _ |- Forall _ _ =>
                 destruct (order_lines H) as (its' & _ & Hlines);
                 apply lines_usd in Hlines;
                 revert Hlines; apply Forall_impl; intros l []; assumption
             | H : PaymentRequestOf _ _ _ _ _ |- currency _ = _ =>
                 apply (payment_currency H)
             end.
Qed.

Lemma checkout_without_items (R : Runtime) (b : CheckoutRequest) (v : string)
    (s : St R) :
  items b = None ->
  fst (checkout R b v s) = Rejected (faultError R MapOfNonArray).
Proof.
  intros Hitems. unfold checkout. unfold bind at 1.
  destruct (getOrCreateCustomer_spec R (customerName b) s)
    as (cid & cust & s1 & -> & _).
  unfold bind at 1. rewrite Hitems. reflexivity.
Qed.

Lemma tail_without_items {R : Runtime} {b : CheckoutRequest} {v : string}
    {cid : option string} {tail : list Exchange} {code : Z}
    {answer : JsonBody} :
  items b = None ->
  CheckoutTail R b v cid tail code answer ->
  tail = [] /\ code = 500
  /\ answer = FailureBody (faultMessage R MapOfNonArray).
Proof.
  intros Hitems Htail.
  destruct Htail;
    repeat match goal with
           | H : OrderRequestOf _ _ _ _ _ |- _ =>
               destruct (order_lines H) as (its' & Hits' & _); clear H
           end; try congruence.
  auto.
Qed.

(** C10. A POST whose body has no usable [items] array is not rejected up
    front: [items.map] throws inside the [try] block, after the catalog
    lookup and the customer resolution have made their calls; the [catch]
    block reports it as 500 {success:false, error: message}.  No order or
    payment call is made, and the status is 500 in every case (with the
    catalog unresolved it is the 500 of that case), never a 4xx. *)
Theorem missing_items_reported_as_500 (R : Runtime) (req : Req)
    (b : CheckoutRequest) (w : World R) :
  method req = "POST" -> body req = Some b -> items b = None ->
  (forall v s, fst (checkout R b v s) = Rejected (faultError R MapOfNonArray))
  /\ fst (run R req w) = Fulfilled tt
  /\ statusCode (res (snd (run R req w))) = 500
  /\ (forall x, In x (calls (snd (run R req w))) ->
        isOrderCall (call x) = false /\ isPaymentCall (call x) = false)
  /\ (forall v, resolvedVariation R w = Some v -> v <> EmptyString ->
        sent (res (snd (run R req w)))
        = Some (Json (FailureBody (faultMessage R MapOfNonArray)))
        /\ exists cust cid,
             calls (snd (run R req w)) = catalogExchange R w :: cust
             /\ CustomerResolution (customerName b) cust cid
             /\ forall n, customerName b = Some n ->
                  exists r rest, cust = exchange (searchOf n) r :: rest)
  /\ (resolvedVariation R w = None
      \/ resolvedVariation R w = Some EmptyString ->
        sent (res (snd (run R req w)))
        = Some (Json (FailureBody "Item variation not configured"))
        /\ calls (snd (run R req w)) = [catalogExchange R w]).
Proof.
  intros Hpost Hbody Hitems.
  split; [intros v s; now apply checkout_without_items|].
  pose proof (run_sound R req w) as Hrun.
  destruct (run R req w) as [o st]; cbn [fst snd] in *.
  inversion Hrun; subst; try congruence;
    match goal with H : Responded _ _ _ |- _ => rewrite H end;
    match goal with H : calls st = _ |- _ => rewrite H in * end;
    match goal with
    | H : body req = Some ?b' |- _ =>
        assert (b' = b) by congruence; subst b'
    end; cbn [statusCode sent].
  - do 2 (split; [reflexivity|]).
    split; [intros x [<-|[]]; split; reflexivity|].
    split; [|auto].
    intros v Hv Hne.
    match goal with H : _ \/ _ |- _ => destruct H as [H|H] end; congruence.
  - match goal with
    | H : CheckoutTail _ _ _ _ _ _ _ |- _ =>
        destruct (tail_without_items Hitems H) as (-> & -> & ->)
    end.
    rewrite app_nil_r.
    match goal with H : Responded _ _ _ |- _ => rewrite ?H end.
    match goal with
    | H : CustomerResolution _ _ _ |- _ =>
        pose proof (customer_calls_only H) as Hcust
    end.
    rewrite Forall_forall in Hcust.
    do 2 (split; [reflexivity|]).
    split.
    { intros x [<-|Hx]; [split; reflexivity|].
      apply Hcust in Hx. now destruct (call x). }
    split; [|intros [?|?]; congruence].
    intros v' _ _. split; [reflexivity|].
    exists cust, cid. do 2 (split; [trivial|]).
    intros n Hn.
    match goal with H : CustomerResolution _ _ _ |- _ => destruct H end;
      try congruence;
      match goal with
      | H : customerName b = Some ?m |- _ =>
          assert (m = n) by congruence; subst m
      end; eauto.
Qed.

(** C6. Customer resolution cannot fail the request.  The resolver always
    returns, and returns null when one of its calls threw.  In a run where a
    customer call threw, every later request goes out with no customer
    attached, and the order-creation call is made whenever the line items
    can be built. *)
Theorem customer_failure_is_not_fatal (R : Runtime) (req : Req)
    (w : World R) (x : Exchange) :
  In x (calls (snd (run R req w))) ->
  isCustomerCall (call x) = true -> failed x = true ->
  (forall name s, exists cid s',
      getOrCreateCustomer R name s = (Fulfilled cid, s')
      /\ forall cust, calls s' = (calls s ++ cust)%list ->
           Exists (fun y => failed y = true) cust -> cid = None)
  /\ fst (run R req w) = Fulfilled tt
  /\ (forall y, In y (calls (snd (run R req w))) ->
        attachedCustomer (call y) = None)
  /\ (forall b its, body req = Some b -> items b = Some its ->
        Forall (fun it => Math_round (price it * 100)%float <> None) its ->
        exists rq r,
          In (exchange (CreateOrder rq) r) (calls (snd (run R req w)))
          /\ order_customerId (order rq) = None).
Proof.
  intros Hin Hcall Hfailed.
  split.
  { intros name s.
    destruct (getOrCreateCustomer_spec R name s)
      as (cid & cust & s1 & E & Hcust & Hcalls & _).
    exists cid, s1. split; [exact E|].
    intros cust' Hcalls' Hex. rewrite Hcalls in Hcalls'.
    apply app_inv_head in Hcalls'. subst cust'.
    exact (customer_failure_null Hcust Hex). }
  pose proof (run_sound R req w) as Hrun.
  destruct (run R req w) as [o st]; cbn [fst snd] in *.
  inversion Hrun; subst;
    match goal with H : calls st = _ |- _ => rewrite H in * end;
    try solve [cbn in Hin; intuition (subst; discriminate)].
  match goal with
  | H : CustomerResolution _ _ _ |- _ =>
      pose proof (customer_calls_only H) as Hcust;
      pose proof (customer_failure_null H) as Hnull
  end.
  rewrite Forall_forall in Hcust.
  assert (Hcid : cid = None).
  { apply Hnull. apply Exists_exists. exists x. split; [|exact Hfailed].
    apply in_checkout_calls in Hin. destruct Hin as [->|[Hin|Hin]];
      [discriminate Hcall|exact Hin|].
    match goal with H : CheckoutTail _ _ _ _ _ _ _ |- _ => inversion H end;
      subst; in_tail; discriminate. }
  subst cid. split; [reflexivity|]. split.
  - intros y Hy. apply in_checkout_calls in Hy.
    destruct Hy as [->|[Hy|Hy]]; [reflexivity| |].
    + apply Hcust in Hy. now destruct (call y).
    + match goal with H : CheckoutTail _ _ _ _ _ _ _ |- _ => inversion H end;
        subst; in_tail; cbn;
        match goal with
        | H : OrderRequestOf _ _ _ _ ?q
          |- order_customerId (order ?q) = _ => apply (order_customer H)
        | H : PaymentRequestOf _ _ _ _ ?q
          |- payment_customerId ?q = _ => apply (payment_customer H)
        end.
  - intros b' its Hb Hits Hprices.
    assert (b' = b) by congruence; subst b'.
    rewrite Forall_forall in Hprices.
    match goal with H : CheckoutTail _ _ _ _ _ _ _ |- _ => inversion H end;
      subst; try congruence.
    { match goal with
      | H : items b = Some ?l, Hi : In ?it ?l |- _ =>
          assert (l = its) by congruence; subst l;
          now apply Hprices in Hi
      end. }
    all: match goal with
         | H : OrderRequestOf _ _ _ _ ?q |- _ =>
             exists q; eexists; split; [|apply (order_customer H)]
         end.
    all: apply in_cons, in_or_app; right; left; reflexivity.
Qed.

(** C7. The catalog resolver returns the identifier of the first entry of
    the configured item's variation list when the list is not empty, and
    null when the list is empty or absent or the lookup throws.  The lookup
    is the same call for every request, and every line item of every order
    carries the variation so resolved. *)
Theorem first_variation_selected (R : Runtime) :
  (forall s response first rest,
      catalogLookup R (world s) = Fulfilled response ->
      variationList response = first :: rest ->
      fst (getItemVariationId R s) = Fulfilled (Some (variation_id first)))
  /\ (forall s response,
        catalogLookup R (world s) = Fulfilled response ->
        variationList response = [] ->
        fst (getItemVariationId R s) = Fulfilled None)
  /\ (forall s e,
        catalogLookup R (world s) = Rejected e ->
        fst (getItemVariationId R s) = Fulfilled None)
  /\ (forall req w x,
        In x (calls (snd (run R req w))) ->
        isCatalogCall (call x) = true ->
        x = catalogExchange R w)
  /\ (forall req w rq r,
        In (exchange (CreateOrder rq) r) (calls (snd (run R req w))) ->
        Forall (fun l => Some (catalogObjectId l) = resolvedVariation R w)
               (lineItems (order rq))).
Proof.
  assert (Hresolver : forall s,
             fst (getItemVariationId R s)
             = Fulfilled (resolvedVariation R (world s))).
  { intros s. destruct (getItemVariationId_spec R s) as (s' & -> & _).
    reflexivity. }
  split; [|split; [|split; [|split]]].
  - intros s response first rest Hlookup Hlist.
    rewrite Hresolver. unfold resolvedVariation. now rewrite Hlookup, Hlist.
  - intros s response Hlookup Hlist.
    rewrite Hresolver. unfold resolvedVariation. now rewrite Hlookup, Hlist.
  - intros s e Hlookup.
    rewrite Hresolver. unfold resolvedVariation. now rewrite Hlookup.
  - intros req w x Hin Hcat.
    pose proof (run_sound R req w) as Hrun.
    destruct (run R req w) as [o st]; cbn [fst snd] in *.
    inversion Hrun; subst;
      match goal with H : calls st = _ |- _ => rewrite H in * end;
      try solve [cbn in Hin; intuition].
    match goal with
    | H : CustomerResolution _ _ _ |- _ =>
        pose proof (customer_calls_only H) as Hcust
    end.
    rewrite Forall_forall in Hcust.
    apply in_checkout_calls in Hin. destruct Hin as [->|[Hin|Hin]];
      [reflexivity| |].
    + apply Hcust in Hin. destruct (call x); discriminate.
    + match goal with H : CheckoutTail _ _ _ _ _ _ _ |- _ => inversion H end;
        subst; in_tail; discriminate.
  - intros req w rq r Hin.
    pose proof (run_sound R req w) as Hrun.
    destruct (run R req w) as [o st]; cbn [fst snd] in *.
    inversion Hrun; subst;
      match goal with H : calls st = _ |- _ => rewrite H in * end;
      try solve [cbn in Hin; intuition discriminate].
    match goal with
    | H : CustomerResolution _ _ _ |- _ =>
        pose proof (customer_calls_only H) as Hcust
    end.
    rewrite Forall_forall in Hcust.
    apply in_checkout_calls in Hin. destruct Hin as [Hin|[Hin|Hin]].
    + discriminate Hin.
    + apply Hcust in Hin. discriminate Hin.
    + match goal with H : resolvedVariation _ _ = _ |- _ => rewrite H end.
      match goal with H : CheckoutTail _ _ _ _ _ _ _ |- _ => inversion H end;
        subst; in_tail; try discriminate;
        match goal with
        | H : OrderRequestOf _ _ _ _ _ |- Forall _ _ =>
            destruct (order_lines H) as (its' & _ & Hlines);
            apply lines_usd in Hlines;
            revert Hlines; apply Forall_impl; intros l [_ ->]; reflexivity
        end.
Qed.

Lemma Math_round_half_up (x : float) (z : Z) :
  Math_round x = Some z -> roundsHalfUp x z.
Proof.
  unfold Math_round, roundsHalfUp, exact.
  destruct (Prim2SF x) as [s| s | |s m e]; try discriminate.
  - intros [= <-]. unfold Qle, Qlt; cbn. lia.
  - set (sm := if s then Z.neg m else Z.pos m).
    destruct (Z.leb_spec 0 e) as [He|He].
    + intros [= <-].
      unfold Qle, Qlt, Qminus, Qplus, Qopp, inject_Z; cbn [Qnum Qden]. lia.
    + assert (Hpow : 0 < 2 ^ (- e)) by (apply Z.pow_pos_nonneg; lia).
      assert (Hdouble : 2 ^ (- e + 1) = 2 * 2 ^ (- e))
        by (rewrite Z.pow_add_r by lia; lia).
      pose proof (Z.div_mod (2 * sm + 2 ^ (- e)) (2 ^ (- e + 1))
                    ltac:(lia)) as Hdiv.
      pose proof (Z.mod_pos_bound (2 * sm + 2 ^ (- e)) (2 ^ (- e + 1))
                    ltac:(lia)) as Hmod.
      set (q := (2 * sm + 2 ^ (- e)) / 2 ^ (- e + 1)) in *.
      set (r := (2 * sm + 2 ^ (- e)) mod 2 ^ (- e + 1)) in *.
      intros Hz. assert (z = q) by congruence. subst z. clear Hz.
      unfold Qle, Qlt, Qminus, Qplus, Qopp, inject_Z; cbn [Qnum Qden].
      rewrite Z2Pos.id by exact Hpow.
      nia.
Qed.

(** The product is the binary64 one: 1.005 is stored just below 1.005, its
    product with 100 is just below 100.5, and it is sent as 100. *)
Example minorUnits_of_1_005 : minorUnits 1.005%float = Some 100.
Proof. vm_compute. reflexivity. Qed.

(** A tie goes up, also below zero. *)
Example minorUnits_of_ties :
  minorUnits 0.125%float = Some 13 /\ minorUnits (-0.125)%float = Some (-12).
Proof. split; vm_compute; reflexivity. Qed.

(** C1. Money is sent in minor units rounded half-up: the base price of
    every line item is the nearest integer to the number [price * 100] (the
    binary64 product the program computes), a tie going up, and the amount
    of the payment is [amount * 100] rounded the same way; a price of 12.345
    gives 1235 and an amount of 9.999 gives 1000. *)
Theorem cents_round_half_up (R : Runtime) :
  (forall v it s line s',
      lineItem R v it s = (Fulfilled line, s') ->
      roundsHalfUp (price it * 100)%float
                   (money_amount (basePriceMoney line)))
  /\ (forall req w b its rq r,
        body req = Some b -> items b = Some its ->
        In (exchange (CreateOrder rq) r) (calls (snd (run R req w))) ->
        Forall2 (fun it line =>
                   roundsHalfUp (price it * 100)%float
                                (money_amount (basePriceMoney line)))
                its (lineItems (order rq)))
  /\ (forall req w b rq r,
        body req = Some b ->
        In (exchange (CreatePayment rq) r) (calls (snd (run R req w))) ->
        roundsHalfUp (amount b * 100)%float
                     (money_amount (amountMoney rq)))
  /\ (forall v it s,
        price it = 12.345%float ->
        exists line,
          lineItem R v it s = (Fulfilled line, s)
          /\ money_amount (basePriceMoney line) = 1235)
  /\ minorUnits 12.345%float = Some 1235
  /\ minorUnits 9.999%float = Some 1000.
Proof.
  split; [|split; [|split; [|split; [|split]]]].
  - intros v it s line s' Hline.
    destruct (lineItem_spec R v it s) as [(l & E & Hl)|(_ & E)];
      rewrite E in Hline; [|discriminate].
    injection Hline as <- _.
    apply Math_round_half_up, (line_cents Hl).
  - intros req w b its rq r Hbody Hits Hin.
    pose proof (run_sound R req w) as Hrun.
    destruct (run R req w) as [o st]; cbn [fst snd] in *.
    inversion Hrun; subst;
      match goal with H : calls st = _ |- _ => rewrite H in * end;
      try solve [cbn in Hin; intuition discriminate].
    match goal with
    | H : CustomerResolution _ _ _ |- _ =>
        pose proof (customer_calls_only H) as Hcust
    end.
    rewrite Forall_forall in Hcust.
    apply in_checkout_calls in Hin. destruct Hin as [Hin|[Hin|Hin]].
    + discriminate Hin.
    + apply Hcust in Hin. discriminate Hin.
    + match goal with H : CheckoutTail _ _ _ _ _ _ _ |- _ => inversion H end;
        subst; in_tail; try discriminate;
        match goal with
        | H : OrderRequestOf _ _ _ _ _ |- Forall2 _ _ _ =>
            destruct (order_lines H) as (its' & Hits' & Hlines);
            assert (its' = its) by congruence; subst its';
            revert Hlines; apply Forall2_impl; intros it line Hl;
            apply Math_round_half_up, (line_cents Hl)
        end.
  - intros req w b rq r Hbody Hin.
    pose proof (run_sound R req w) as Hrun.
    destruct (run R req w) as [o st]; cbn [fst snd] in *.
    inversion Hrun; subst;
      match goal with H : calls st = _ |- _ => rewrite H in * end;
      try solve [cbn in Hin; intuition discriminate].
    match goal with
    | H : CustomerResolution _ _ _ |- _ =>
        pose proof (customer_calls_only H) as Hcust
    end.
    rewrite Forall_forall in Hcust.
    apply in_checkout_calls in Hin. destruct Hin as [Hin|[Hin|Hin]].
    + discriminate Hin.
    + apply Hcust in Hin. discriminate Hin.
    + assert (b0 = b) by congruence; subst b0.
      match goal with H : CheckoutTail _ _ _ _ _ _ _ |- _ => inversion H end;
        subst; in_tail; try discriminate;
        match goal with
        | H : PaymentRequestOf _ _ _ _ _ |- _ =>
            apply Math_round_half_up, (payment_cents H)
        end.
  - intros v it s Hprice.
    destruct (lineItem_spec R v it s) as [(l & E & Hl)|(Hnone & _)].
    + exists l. split; [exact E|].
      pose proof (line_cents Hl) as Hc. rewrite Hprice in Hc.
      vm_compute in Hc. now injection Hc.
    + rewrite Hprice in Hnone. vm_compute in Hnone. discriminate.
  - vm_compute. reflexivity.
  - vm_compute. reflexivity.
Qed.

(** ** The customer key *)

Lemma isWhiteSpace_toLowerCaseChar (c : ascii) :
  isWhiteSpace (toLowerCaseChar c) = isWhiteSpace c.
Proof. destruct c as [[] [] [] [] [] [] [] []]; reflexivity. Qed.

Lemma trimStart_toLowerCase (s : string) :
  trimStart (toLowerCase s) = toLowerCase (trimStart s).
Proof.
  induction s as [|c r IH]; cbn; [reflexivity|].
  rewrite isWhiteSpace_toLowerCaseChar.
  destruct (isWhiteSpace c); [exact IH|reflexivity].
Qed.

Lemma startsWithWhiteSpace_toLowerCase (s : string) :
  startsWithWhiteSpace (toLowerCase s) = startsWithWhiteSpace s.
Proof. destruct s; cbn; [reflexivity|apply isWhiteSpace_toLowerCaseChar]. Qed.

Lemma endsWithWhiteSpace_toLowerCase (s : string) :
  endsWithWhiteSpace (toLowerCase s) = endsWithWhiteSpace s.
Proof.
  induction s as [|c r IH]; cbn; [reflexivity|].
  destruct r as [|c' r']; cbn in *;
    [apply isWhiteSpace_toLowerCaseChar|exact IH].
Qed.

Lemma replaceRuns_in_run (s : string) :
  replaceRuns true s = replaceRuns false (trimStart s).
Proof.
  induction s as [|c r IH]; cbn; [reflexivity|].
  destruct (isWhiteSpace c) eqn:Ec; [exact IH|].
  cbn. now rewrite Ec.
Qed.

Lemma replaceRuns_leading (s : string) :
  replaceWhiteSpaceRuns s
  = (underscoreIf (startsWithWhiteSpace s)
     ++ replaceWhiteSpaceRuns (trimStart s))%string.
Proof.
  unfold replaceWhiteSpaceRuns.
  destruct s as [|c r]; cbn; [reflexivity|].
  destruct (isWhiteSpace c) eqn:Ec; cbn.
  - now rewrite replaceRuns_in_run.
  - now rewrite Ec.
Qed.

Lemma trimEnd_empty (s : string) :
  trimEnd s = EmptyString -> s = EmptyString \/ endsWithWhiteSpace s = true.
Proof.
  induction s as [|c r IH]; [now left|]. cbn. right.
  destruct (trimEnd r) as [|c' r'] eqn:Er; [|discriminate].
  destruct (isWhiteSpace c) eqn:Ec; [|discriminate].
  destruct (IH eq_refl) as [->|Hr]; [reflexivity|].
  destruct r; [discriminate Hr|exact Hr].
Qed.

Lemma endsWithWhiteSpace_cons (c : ascii) (r : string) :
  endsWithWhiteSpace (String c r)
  = match r with
    | EmptyString => isWhiteSpace c
    | _ => endsWithWhiteSpace r
    end.
Proof. reflexivity. Qed.

(** What a trailing run of white space turns into: an underscore, unless
    it continues a run already being replaced. *)
Lemma replaceRuns_trailing (s : string) (inRun : bool) :
  replaceRuns inRun s
  = (replaceRuns inRun (trimEnd s)
     ++ underscoreIf (endsWithWhiteSpace s
                      && (truthy (trimEnd s) || negb inRun)))%string.
Proof.
  revert inRun. induction s as [|c r IH]; intros inRun; [reflexivity|].
  rewrite endsWithWhiteSpace_cons.
  cbn [trimEnd replaceRuns].
  destruct (trimEnd r) as [|c' r'] eqn:Er.
  - destruct (isWhiteSpace c) eqn:Ec.
    + rewrite (IH true). cbn [replaceRuns truthy orb negb].
      rewrite andb_false_r. cbn.
      destruct (trimEnd_empty r Er) as [->|Hr].
      * now destruct inRun.
      * destruct r; [discriminate Hr|]. rewrite Hr. now destruct inRun.
    + rewrite (IH false). cbn [replaceRuns truthy orb negb].
      rewrite Ec, !andb_true_r. cbn.
      destruct r; reflexivity.
  - assert (Hr : r <> EmptyString) by (intros ->; discriminate Er).
    destruct r as [|c0 r0]; [contradiction|].
    cbn [replaceRuns truthy orb] in *.
    rewrite !andb_true_r.
    destruct (isWhiteSpace c) eqn:Ec.
    + rewrite (IH true), andb_true_r. now destruct inRun.
    + rewrite (IH false), andb_true_r. reflexivity.
Qed.

Lemma endsWithWhiteSpace_trimStart (s : string) :
  endsWithWhiteSpace (trimStart s) = true -> endsWithWhiteSpace s = true.
Proof.
  induction s as [|c r IH]; [easy|].
  cbn [trimStart]. destruct (isWhiteSpace c); [|easy].
  intros Hr. specialize (IH Hr). rewrite endsWithWhiteSpace_cons.
  destruct r; [discriminate IH|exact IH].
Qed.

Lemma customerReferenceId_normalizedKey (n : string) :
  customerReferenceId n
  = (underscoreIf (startsWithWhiteSpace n)
     ++ normalizedKey n
     ++ underscoreIf (endsWithWhiteSpace (trimStart n)))%string.
Proof.
  unfold customerReferenceId, normalizedKey, trim.
  rewrite replaceRuns_leading, startsWithWhiteSpace_toLowerCase.
  f_equal. unfold replaceWhiteSpaceRuns.
  rewrite (replaceRuns_trailing (trimStart (toLowerCase n)) false).
  cbn [negb]. rewrite orb_true_r, andb_true_r.
  now rewrite trimStart_toLowerCase, endsWithWhiteSpace_toLowerCase.
Qed.

Lemma customer_calls_keyed {name : option string} {cust : list Exchange}
    {cid : option string} (n : string) :
  CustomerResolution name cust cid -> name = Some n ->
  Forall (fun x => keyedBy (customerReferenceId n) (call x)) cust.
Proof.
  intros H Hn; destruct H; subst;
    match goal with
    | H : Some _ = Some _ |- _ => injection H as ->
    | _ => idtac
    end; repeat constructor; try discriminate; cbn; assumption.
Qed.

(** C2, as the code has it.  The key a customer is searched and created
    under is the name in lower case with every run of white space, leading
    and trailing runs included, replaced by one underscore; nothing is
    trimmed.  It is the trimmed-and-collapsed key of the specification with
    an underscore in front when the name starts with white space and one at
    the end when the name ends with white space after its first
    non-space character; the two agree on names without outer white space.
    The search and the creation request of a run carry this same key. *)
Theorem customer_key_is_not_trimmed :
  (forall n,
      customerReferenceId n
      = (underscoreIf (startsWithWhiteSpace n)
         ++ normalizedKey n
         ++ underscoreIf (endsWithWhiteSpace (trimStart n)))%string)
  /\ (forall n,
        startsWithWhiteSpace n = false -> endsWithWhiteSpace n = false ->
        customerReferenceId n = normalizedKey n)
  /\ (forall R req w b n x,
        body req = Some b -> customerName b = Some n ->
        In x (calls (snd (run R req w))) ->
        keyedBy (customerReferenceId n) (call x))
  /\ customerReferenceId "Jane Q. Public" = "jane_q._public"
  /\ customerReferenceId "  Bob   Lee " = "_bob_lee_".
Proof.
  split; [exact customerReferenceId_normalizedKey|].
  split; [|split; [|split; reflexivity]].
  - intros n Hstart Hend.
    rewrite customerReferenceId_normalizedKey, Hstart.
    destruct (endsWithWhiteSpace (trimStart n)) eqn:Et.
    + apply endsWithWhiteSpace_trimStart in Et. congruence.
    + cbn. apply append_empty_r.
  - intros R req w b n x Hbody Hname Hin.
    pose proof (run_sound R req w) as Hrun.
    destruct (run R req w) as [o st]; cbn [fst snd] in *.
    inversion Hrun; subst;
      match goal with H : calls st = _ |- _ => rewrite H in * end;
      try solve [cbn in Hin; intuition (subst; exact I)].
    assert (b0 = b) by congruence; subst b0.
    match goal with
    | H : CustomerResolution _ _ _ |- _ =>
        pose proof (customer_calls_keyed n H Hname) as Hkey
    end.
    rewrite Forall_forall in Hkey.
    apply in_checkout_calls in Hin. destruct Hin as [->|[Hin|Hin]].
    + exact I.
    + now apply Hkey.
    + match goal with H : CheckoutTail _ _ _ _ _ _ _ |- _ => inversion H end;
        subst; in_tail; exact I.
Qed.

(** C2 as the specification states it fails on a name with outer white
    space: the specification's key of "  Bob   Lee " is "bob_lee", the key
    the code derives is "_bob_lee_". *)
Lemma customer_key_keeps_outer_white_space :
  normalizedKey "  Bob   Lee " = "bob_lee"
  /\ customerReferenceId "  Bob   Lee " = "_bob_lee_"
  /\ customerReferenceId "  Bob   Lee " <> "bob_lee".
Proof. split; [reflexivity|split; [reflexivity|discriminate]]. Qed.

(** ** The claims on the scripted platform *)

Import Scripted.

(** The end-to-end scenario: one customer-create call, one order-create
    call with the single line item, one payment-create call for 1000 minor
    units against the created order, and a 200 answer with the payment's
    id and status and the order's id. *)
Example end_to_end_scenario :
  map call (calls (snd (run (platform happy) annLee 0%nat)))
  = [ RetrieveCatalogObject "ITEM1" true; annLeeSearch; annLeeCreate;
      CreateOrder annLeeOrder; CreatePayment annLeePayment ]
  /\ res (snd (run (platform happy) annLee 0%nat))
     = {| headers := corsHeaders;
          statusCode := 200;
          sent := Some (Json (SuccessBody (Some "PAY1") (Some "ORDER1")
                                          (Some "COMPLETED"))) |}.
Proof. split; vm_compute; reflexivity. Qed.

Lemma method_not_allowed_witness :
  fst (run (platform happy) getRequest 0%nat) = Fulfilled tt
  /\ statusCode (res (snd (run (platform happy) getRequest 0%nat))) = 405
  /\ sent (res (snd (run (platform happy) getRequest 0%nat)))
     = Some (Json (ErrorBody "Method not allowed"))
  /\ calls (snd (run (platform happy) getRequest 0%nat)) = []
  /\ world (snd (run (platform happy) getRequest 0%nat)) = 0%nat.
Proof.
  apply (method_not_allowed (platform happy) getRequest 0%nat); discriminate.
Defined.

Lemma catalog_unresolved_fails_fast_witness :
  fst (run (platform noVariations) annLee 0%nat) = Fulfilled tt
  /\ statusCode (res (snd (run (platform noVariations) annLee 0%nat))) = 500
  /\ sent (res (snd (run (platform noVariations) annLee 0%nat)))
     = Some (Json (FailureBody "Item variation not configured"))
  /\ calls (snd (run (platform noVariations) annLee 0%nat))
     = [catalogExchange (platform noVariations) 0%nat]
  /\ (forall x,
        In x (calls (snd (run (platform noVariations) annLee 0%nat))) ->
        isCustomerCall (call x) = false
        /\ isOrderCall (call x) = false
        /\ isPaymentCall (call x) = false).
Proof.
  apply (catalog_unresolved_fails_fast
           (platform noVariations) annLee annLeeBody 0%nat);
    reflexivity.
Defined.

Lemma order_failure_stops_before_payment_witness :
  (forall x, In x (calls (snd (run (platform orderRefused) annLee 0%nat))) ->
     isPaymentCall (call x) = false)
  /\ fst (run (platform orderRefused) annLee 0%nat) = Fulfilled tt
  /\ statusCode (res (snd (run (platform orderRefused) annLee 0%nat))) = 500
  /\ sent (res (snd (run (platform orderRefused) annLee 0%nat)))
     = Some (Json (FailureBody "Order refused")).
Proof.
  apply (order_failure_stops_before_payment
           (platform orderRefused) annLee 0%nat
           annLeeOrder (apiError "Order refused")).
  vm_compute. do 3 right. left. reflexivity.
Defined.

Lemma payment_failure_leaves_order_witness :
  (exists before orq,
     calls (snd (run (platform cardDeclined) annLee 0%nat))
     = (before ++ [exchange (CreateOrder orq) None;
                   exchange (CreatePayment annLeePayment)
                            (Some (apiError "Card declined"))])%list
     /\ forall x, In x before ->
          isOrderCall (call x) = false /\ isPaymentCall (call x) = false)
  /\ fst (run (platform cardDeclined) annLee 0%nat) = Fulfilled tt
  /\ statusCode (res (snd (run (platform cardDeclined) annLee 0%nat))) = 500
  /\ sent (res (snd (run (platform cardDeclined) annLee 0%nat)))
     = Some (Json (FailureBody "Card declined")).
Proof.
  apply (payment_failure_leaves_order
           (platform cardDeclined) annLee 0%nat
           annLeePayment (apiError "Card declined")).
  vm_compute. do 4 right. left. reflexivity.
Defined.

Lemma money_is_usd_witness :
  usdOnly (CreateOrder annLeeOrder) /\ usdOnly (CreatePayment annLeePayment).
Proof.
  split.
  - apply (money_is_usd (platform happy) annLee 0%nat
             (exchange (CreateOrder annLeeOrder) None)).
    vm_compute. do 3 right. left. reflexivity.
  - apply (money_is_usd (platform happy) annLee 0%nat
             (exchange (CreatePayment annLeePayment) None)).
    vm_compute. do 4 right. left. reflexivity.
Defined.

Lemma missing_items_reported_as_500_witness :
  fst (run (platform happy) annLeeNoItems 0%nat) = Fulfilled tt
  /\ statusCode (res (snd (run (platform happy) annLeeNoItems 0%nat))) = 500
  /\ sent (res (snd (run (platform happy) annLeeNoItems 0%nat)))
     = Some (Json (FailureBody
                     "Cannot read properties of undefined (reading 'map')")).
Proof.
  destruct (missing_items_reported_as_500
              (platform happy) annLeeNoItems noItemsBody 0%nat
              eq_refl eq_refl eq_refl)
    as (_ & Hrun & Hstatus & _ & Hresolved & _).
  split; [exact Hrun|split; [exact Hstatus|]].
  apply (Hresolved "VAR1"); [reflexivity|discriminate].
Defined.

Lemma customer_failure_is_not_fatal_witness :
  fst (run (platform customerSearchDown) annLee 0%nat) = Fulfilled tt
  /\ (forall y,
        In y (calls (snd (run (platform customerSearchDown) annLee 0%nat))) ->
        attachedCustomer (call y) = None)
  /\ exists rq r,
       In (exchange (CreateOrder rq) r)
          (calls (snd (run (platform customerSearchDown) annLee 0%nat)))
       /\ order_customerId (order rq) = None.
Proof.
  destruct (customer_failure_is_not_fatal
              (platform customerSearchDown) annLee 0%nat
              (exchange annLeeSearch
                        (Some (apiError "Customer search unavailable"))))
    as (_ & Hrun & Hnone & Horder).
  - vm_compute. right. left. reflexivity.
  - reflexivity.
  - reflexivity.
  - split; [exact Hrun|split; [exact Hnone|]].
    apply (Horder annLeeBody [latte]); [reflexivity|reflexivity|].
    repeat constructor. vm_compute. discriminate.
Defined.

Lemma first_variation_selected_witness :
  fst (getItemVariationId (platform happy) (fresh (platform happy) 0%nat))
  = Fulfilled (Some "VAR1").
Proof.
  apply (proj1 (first_variation_selected (platform happy))
           (fresh (platform happy) 0%nat)
           {| object :=
                Some {| itemData :=
                          Some {| variations :=
                                    Some [ {| variation_id := "VAR1" |} ] |} |} |}
           {| variation_id := "VAR1" |} []);
    reflexivity.
Defined.

Lemma cents_round_half_up_witness :
  roundsHalfUp (10 * 100)%float 1000.
Proof.
  apply (proj1 (proj2 (proj2 (cents_round_half_up (platform happy))))
           annLee 0%nat annLeeBody annLeePayment None).
  - reflexivity.
  - vm_compute. do 4 right. left. reflexivity.
Defined.

(** * Further properties of the handler *)

Ltac run_inv R req w :=
  let Hrun := fresh "Hrun" in
  pose proof (run_sound R req w) as Hrun;
  destruct (run R req w) as [o st]; cbn [fst snd] in *;
  inversion Hrun; subst; clear Hrun;
  repeat match goal with
         | H : calls st = _ |- _ => rewrite H in *; clear H
         end.

Ltac customer_only :=
  match goal with
  | H : CustomerResolution _ _ _ |- _ =>
      let Hcust := fresh "Hcust" in
      pose proof (customer_calls_only H) as Hcust;
      rewrite Forall_forall in Hcust
  end.

(** X1. A preflight request (method OPTIONS) is answered 200 with an empty
    body and the three cross-origin headers; the platform is not called and
    the world is left as it was, whatever the body. *)
Theorem preflight_is_answered_locally (R : Runtime) (req : Req)
    (w : World R) :
  method req = "OPTIONS" ->
  run R req w
  = (Fulfilled tt,
     {| world := w; calls := []; console := [];
        res := {| headers := corsHeaders; statusCode := 200;
                  sent := Some Ended |} |}).
Proof.
  intros Hopt. unfold run, handler.
  unfold bind at 1 2 3, res_setHeader, modify_res.
  cbn -[String.eqb bind]. rewrite Hopt. reflexivity.
Qed.

(** X2. Whatever the request and whatever the platform does, the response
    object ends up carrying exactly the three cross-origin headers, also
    when the handler throws. *)
Theorem cors_headers_on_every_run (R : Runtime) (req : Req) (w : World R) :
  headers (res (snd (run R req w))) = corsHeaders.
Proof.
  destruct (body req) as [b|] eqn:Ebody.
  - run_inv R req w; try congruence;
      match goal with H : Responded _ _ _ |- _ => now rewrite H end.
  - unfold run, handler.
    unfold bind at 1 2 3, res_setHeader, modify_res.
    cbn -[String.eqb bind]. rewrite Ebody.
    destruct (String.eqb (method req) "OPTIONS"); [reflexivity|].
    destruct (String.eqb (method req) "POST"); reflexivity.
Qed.

(** X3. A JSON answer with status 200 is a success answer, and it is given
    only when the run ended with an order-creation call and then a
    payment-creation call that both returned; the order id in the answer is
    the one the payment request was made against. *)
Theorem success_means_payment_made (R : Runtime) (req : Req) (w : World R)
    (j : JsonBody) :
  statusCode (res (snd (run R req w))) = 200 ->
  sent (res (snd (run R req w))) = Some (Json j) ->
  exists before orq prq paymentId status,
    calls (snd (run R req w))
    = (before ++ [exchange (CreateOrder orq) None;
                  exchange (CreatePayment prq) None])%list
    /\ j = SuccessBody paymentId (payment_orderId prq) status
    /\ (forall x, In x before ->
          isOrderCall (call x) = false /\ isPaymentCall (call x) = false)
    /\ method req = "POST".
Proof.
  intros Hstatus Hsent.
  run_inv R req w;
    match goal with
    | H : Responded _ _ _ |- _ => rewrite H in Hstatus, Hsent
    | _ => idtac
    end; cbn in Hstatus, Hsent; try discriminate; try congruence.
  injection Hsent as <-. customer_only.
  match goal with H : CheckoutTail _ _ _ _ _ _ _ |- _ => inversion H end;
    subst; try discriminate.
  match goal with
  | H : PaymentRequestOf _ _ _ _ _ |- _ => destruct H
  end.
  exists (catalogExchange R w :: cust), orq, prq, (payment_id p),
    (payment_status p).
  split; [reflexivity|]. split; [congruence|]. split; [|assumption].
  intros x [<-|Hx]; [split; reflexivity|].
  apply Hcust in Hx. now destruct (call x).
Qed.

(** X5. The platform is called only for a POST that carries a body, and
    anything but the catalog lookup only once that lookup has resolved a
    non-empty variation id. *)
Theorem calls_are_gated (R : Runtime) (req : Req) (w : World R)
    (x : Exchange) :
  In x (calls (snd (run R req w))) ->
  method req = "POST"
  /\ (exists b, body req = Some b)
  /\ (isCatalogCall (call x) = false ->
      exists v, resolvedVariation R w = Some v /\ v <> EmptyString).
Proof.
  intros Hin.
  run_inv R req w; try (now destruct Hin).
  - destruct Hin as [<-|[]]. split; [assumption|]. split; [eauto|].
    discriminate.
  - split; [assumption|]. split; [eauto|]. eauto.
Qed.

Ltac tail_inv :=
  match goal with
  | H : CheckoutTail _ _ _ _ _ _ _ |- _ => inversion H; subst; clear H
  end.

Ltac customer_inv :=
  match goal with
  | H : CustomerResolution _ _ _ |- _ => inversion H; subst; clear H
  end.

Ltac split_in H :=
  cbn [app In] in H;
  repeat match type of H with
         | _ \/ _ => destruct H as [H|H]
         | False => destruct H
         end.

(** X6. The calls of a run follow the order of the source: catalog lookup,
    customer search, customer creation, order creation, payment creation.
    The steps of the recorded calls are strictly increasing, so no call is
    made twice and none is made out of order. *)
Theorem calls_follow_the_steps (R : Runtime) (req : Req) (w : World R) :
  StronglySorted Nat.lt (stages (snd (run R req w))).
Proof.
  unfold stages.
  run_inv R req w; cbn; try solve [repeat constructor].
  customer_inv; tail_inv; cbn; repeat constructor.
Qed.

Lemma failed_lookup_unresolved (R : Runtime) (w : World R) :
  failed (catalogExchange R w) = true -> resolvedVariation R w = None.
Proof.
  unfold failed, catalogExchange, resolvedVariation. cbn.
  destruct (catalogLookup R w); [discriminate|reflexivity].
Qed.

(** X7. Nothing is retried.  After a call that threw, no further customer
    call is made; and unless the call that threw is a customer call, it is
    the last call of the run. *)
Theorem failed_calls_are_not_retried (R : Runtime) (req : Req) (w : World R)
    (x : Exchange) :
  In x (calls (snd (run R req w))) -> failed x = true ->
  (forall y, In y (calls (snd (run R req w))) ->
     (stage (call x) < stage (call y))%nat ->
     isCustomerCall (call y) = false)
  /\ (isCustomerCall (call x) = false ->
      exists before, calls (snd (run R req w)) = (before ++ [x])%list).
Proof.
  intros Hin Hfailed.
  run_inv R req w; try (now destruct Hin).
  - destruct Hin as [<-|[]].
    split; [|intros _; now exists []].
    intros y [<-|[]] Hlt. reflexivity.
  - customer_inv; tail_inv; split_in Hin; subst x;
      try discriminate Hfailed;
      try (apply failed_lookup_unresolved in Hfailed; congruence);
      (split;
       [ intros y Hy Hlt; split_in Hy; subst y; cbn in Hlt |- *;
         solve [reflexivity | lia]
       | intros Hc; try discriminate Hc;
         match goal with
         | |- exists before, ?l = _ => exists (removelast l); reflexivity
         end ]).
Qed.

Lemma lines_have_cents {v : string} {its : list Item}
    {ls : list OrderLineItem} :
  Forall2 (LineItemOf v) its ls ->
  Forall (fun it => Math_round (price it * 100)%float <> None) its.
Proof.
  induction 1 as [|it l its ls Hl _ IH]; constructor; [|exact IH].
  rewrite (line_cents Hl). discriminate.
Qed.

Lemma order_request_prices {R : Runtime} {b : CheckoutRequest} {v : string}
    {cid : option string} {rq : CreateOrderRequest} (its : list Item) :
  OrderRequestOf R b v cid rq -> items b = Some its ->
  Forall (fun it => Math_round (price it * 100)%float <> None) its.
Proof.
  intros Horq Hits. destruct (order_lines Horq) as (its' & Hits' & Hlines).
  assert (its' = its) by congruence; subst its'.
  exact (lines_have_cents Hlines).
Qed.

(** X8. A price that is not a finite number (a missing price is NaN) stops
    the request before any order is created: the run makes no order and no
    payment call, and the answer is 500; once the variation is resolved the
    error is the engine's message for the failed BigInt conversion. *)
Theorem price_not_finite_stops_before_order (R : Runtime) (req : Req)
    (b : CheckoutRequest) (w : World R) (its : list Item) :
  method req = "POST" -> body req = Some b -> items b = Some its ->
  Exists (fun it => Math_round (price it * 100)%float = None) its ->
  fst (run R req w) = Fulfilled tt
  /\ statusCode (res (snd (run R req w))) = 500
  /\ (forall x, In x (calls (snd (run R req w))) ->
        isOrderCall (call x) = false /\ isPaymentCall (call x) = false)
  /\ (forall v, resolvedVariation R w = Some v -> v <> EmptyString ->
        sent (res (snd (run R req w)))
        = Some (Json (FailureBody (faultMessage R BigIntOfNonInteger)))).
Proof.
  intros Hpost Hbody Hits Hbad.
  apply Exists_exists in Hbad. destruct Hbad as (bad & Hin & Hnone).
  run_inv R req w; try congruence;
    match goal with H : Responded _ _ _ |- _ => rewrite H end;
    cbn [statusCode sent].
  - do 2 (split; [reflexivity|]).
    split; [intros x [<-|[]]; split; reflexivity|].
    intros v Hv Hne.
    match goal with H : _ \/ _ |- _ => destruct H end; congruence.
  - assert (b0 = b) by congruence; subst b0. customer_only.
    tail_inv; try congruence;
      try (match goal with
           | H : OrderRequestOf _ _ _ _ _ |- _ =>
               pose proof (order_request_prices its H Hits) as Hfin;
               rewrite Forall_forall in Hfin;
               now apply Hfin in Hin
           end).
    rewrite app_nil_r.
    do 2 (split; [reflexivity|]).
    split.
    + intros x [<-|Hx]; [split; reflexivity|].
      apply Hcust in Hx. now destruct (call x).
    + intros v' _ _.
      match goal with H : Responded _ _ _ |- _ => now rewrite H end.
Qed.

(** X9. The amount is converted only after the order has been sent.  With
    an amount that is not a finite number the run makes no payment call and
    answers 500, but the order-creation call is still made whenever the
    variation is resolved and the line items can be built. *)
Theorem amount_not_finite_stops_before_payment (R : Runtime) (req : Req)
    (b : CheckoutRequest) (w : World R) :
  method req = "POST" -> body req = Some b ->
  Math_round (amount b * 100)%float = None ->
  fst (run R req w) = Fulfilled tt
  /\ statusCode (res (snd (run R req w))) = 500
  /\ (forall x, In x (calls (snd (run R req w))) ->
        isPaymentCall (call x) = false)
  /\ (forall v its,
        resolvedVariation R w = Some v -> v <> EmptyString ->
        items b = Some its ->
        Forall (fun it => Math_round (price it * 100)%float <> None) its ->
        exists rq r,
          In (exchange (CreateOrder rq) r) (calls (snd (run R req w)))).
Proof.
  intros Hpost Hbody Hamount.
  run_inv R req w; try congruence;
    match goal with H : Responded _ _ _ |- _ => rewrite H end;
    cbn [statusCode sent].
  - do 2 (split; [reflexivity|]).
    split; [intros x [<-|[]]; reflexivity|].
    intros v its Hv Hne.
    match goal with H : _ \/ _ |- _ => destruct H end; congruence.
  - assert (b0 = b) by congruence; subst b0. customer_only.
    tail_inv;
      try (match goal with
           | H : PaymentRequestOf _ _ _ _ _ |- _ =>
               rewrite (payment_cents H) in Hamount; discriminate
           end).
    all: do 2 (split; [reflexivity|]).
    all: split;
      [ intros x Hx; apply in_checkout_calls in Hx;
        destruct Hx as [->|[Hx|Hx]];
        [ reflexivity
        | apply Hcust in Hx; now destruct (call x)
        | split_in Hx; subst x; reflexivity ]
      | intros v' wanted Hv Hne Hits Hfin ].
    all: try (eexists _, _; apply in_cons, in_or_app; right; left;
              reflexivity).
    + congruence.
    + rewrite Forall_forall in Hfin.
      match goal with
      | H : items b = Some ?l, Hi : In ?it ?l |- _ =>
          assert (l = wanted) by congruence; subst l;
          now apply Hfin in Hi
      end.
Qed.


(** X11. The payment of a run is made for the customer of its order and at
    the order's location, from the request's payment source, with the pickup
    date in its note. *)
Theorem payment_follows_order (R : Runtime) (req : Req)
    (b : CheckoutRequest) (w : World R)
    (orq : CreateOrderRequest) (prq : CreatePaymentRequest)
    (r1 r2 : option JsError) :
  body req = Some b ->
  In (exchange (CreateOrder orq) r1) (calls (snd (run R req w))) ->
  In (exchange (CreatePayment prq) r2) (calls (snd (run R req w))) ->
  r1 = None
  /\ payment_customerId prq = order_customerId (order orq)
  /\ payment_locationId prq = order_locationId (order orq)
  /\ payment_sourceId prq = sourceId b
  /\ payment_note prq = ("Pickup: " ++ pickupDate b)%string.
Proof.
  intros Hbody Hin1 Hin2.
  run_inv R req w; try solve [split_in Hin1; discriminate Hin1].
  assert (b0 = b) by congruence; subst b0. customer_only.
  apply in_checkout_calls in Hin1. destruct Hin1 as [Hin1|[Hin1|Hin1]];
    [discriminate Hin1|apply Hcust in Hin1; discriminate Hin1|].
  apply in_checkout_calls in Hin2. destruct Hin2 as [Hin2|[Hin2|Hin2]];
    [discriminate Hin2|apply Hcust in Hin2; discriminate Hin2|].
  tail_inv; split_in Hin1; split_in Hin2;
    try discriminate Hin1; try discriminate Hin2;
    injection Hin1 as <- <-; injection Hin2 as <- _;
    match goal with
    | Ho : OrderRequestOf _ _ _ _ _, Hp : PaymentRequestOf _ _ _ _ _ |- _ =>
        destruct Ho as [_ Hoc Hol _];
        destruct Hp as [_ _ Hpc _ Hps Hpl Hpn]
    end;
    repeat split; congruence.
Qed.

(** ** More on the customer resolver *)

Ltac js_step :=
  unfold bind, try_catch, await, crypto_randomUUID, console_error,
         raise, throw, ret; cbn.

(** X12. A customer that is on file is reused: when the search returns a
    non-empty list the resolver returns the identifier of its first entry;
    the search is its only call, no UUID is drawn and nothing is logged. *)
Theorem existing_customer_is_reused (R : Runtime) (n : string) (s : St R)
    (response : SearchCustomersResponse) (first : Customer)
    (rest : list Customer) (w1 : World R) :
  searchCustomers R
    {| search_referenceId_exact := customerReferenceId n |} (world s)
  = (Fulfilled response, w1) ->
  customers response = Some (first :: rest) ->
  getOrCreateCustomer R (Some n) s
  = (Fulfilled (customer_id first),
     {| world := w1;
        calls := calls s ++ [exchange (searchOf n) None];
        console := console s;
        res := res s |}).
Proof.
  intros Hsearch Hfound. unfold getOrCreateCustomer. js_step.
  rewrite Hsearch. cbn. rewrite Hfound. reflexivity.
Qed.

(** X13. A call of the resolver that throws is swallowed and logged: the
    resolver returns null, writes the one line "Customer error:" with the
    error's first detail (or its message) to the console, and leaves the
    response object alone. *)
Theorem customer_failure_is_logged (R : Runtime) (name : option string)
    (s : St R) (cust : list Exchange) (x : Exchange) (e : JsError) :
  calls (snd (getOrCreateCustomer R name s)) = (calls s ++ cust)%list ->
  In x cust -> threw x = Some e ->
  fst (getOrCreateCustomer R name s) = Fulfilled None
  /\ console (snd (getOrCreateCustomer R name s))
     = (console s ++ [customerErrorLine e])%list
  /\ res (snd (getOrCreateCustomer R name s)) = res s.
Proof.
  unfold getOrCreateCustomer.
  destruct name as [n|]; js_step.
  - destruct (searchCustomers R _ (world s)) as [[response|e1] w1]; cbn.
    + destruct (customers response) as [[|first rest]|]; cbn.
      2: { intros Hcalls Hin Hthrew. apply app_inv_head in Hcalls.
           subst cust. split_in Hin. subst x. discriminate Hthrew. }
      all: destruct (randomUUID R w1) as [uuid w2]; cbn.
      all: destruct (createCustomer R _ w2) as [[created|e2] w3]; cbn.
      all: try destruct (customer created) as [c|]; cbn.
      all: rewrite <- app_assoc; intros Hcalls Hin Hthrew.
      all: apply app_inv_head in Hcalls; subst cust.
      all: split_in Hin; subst x; try discriminate Hthrew.
      all: injection Hthrew as <-; repeat split; reflexivity.
    + intros Hcalls Hin Hthrew. apply app_inv_head in Hcalls. subst cust.
      split_in Hin. subst x. injection Hthrew as <-.
      repeat split; reflexivity.
  - intros Hcalls Hin. rewrite <- (app_nil_r (calls s)) in Hcalls at 1.
    apply app_inv_head in Hcalls. subst cust. destruct Hin.
Qed.

(** X14. When the catalog lookup throws, the detail of the error goes to
    the console only: the caller gets the fixed message, and the run is the
    lookup, the console line and the 500 answer, nothing else. *)
Theorem catalog_failure_detail_is_only_logged (R : Runtime) (req : Req)
    (b : CheckoutRequest) (w w1 : World R) (e : JsError) :
  method req = "POST" -> body req = Some b ->
  retrieveCatalogObject R (CATALOG_ITEM_ID R) true w = (Rejected e, w1) ->
  run R req w
  = (Fulfilled tt,
     {| world := w1;
        calls := [exchange (RetrieveCatalogObject (CATALOG_ITEM_ID R) true)
                           (Some e)];
        console := [catalogErrorLine e];
        res := {| headers := corsHeaders;
                  statusCode := 500;
                  sent := Some (Json (FailureBody
                                        "Item variation not configured")) |}
     |}).
Proof.
  intros Hpost Hbody Hlookup. unfold run, handler.
  unfold bind at 1 2 3, res_setHeader, modify_res.
  cbn -[String.eqb bind getItemVariationId].
  rewrite Hpost, Hbody. cbn -[bind getItemVariationId].
  unfold bind at 1, getItemVariationId. js_step.
  rewrite Hlookup. reflexivity.
Qed.

(** ** More on the customer key and the customer's names *)








Lemma split_space_cons (s : string) :
  exists h t, split_space s = h :: t.
Proof.
  induction s as [|c r (h & t & IH)]; cbn; [eauto|].
  destruct (Ascii.eqb c " "); [eauto|]. rewrite IH. eauto.
Qed.

(** [s.split(' ').join(' ')] gives [s] back. *)
Lemma join_split_space (s : string) : join_space (split_space s) = s.
Proof.
  induction s as [|c r IH]; [reflexivity|]. cbn [split_space].
  destruct (Ascii.eqb_spec c " ") as [->|Hc].
  - destruct (split_space_cons r) as (h & t & E). rewrite E in *.
    cbn [join_space]. cbn. now rewrite <- IH.
  - destruct (split_space_cons r) as (h & t & E). rewrite E in *.
    rewrite <- IH. destruct t; reflexivity.
Qed.

Lemma first_part_has_no_space (s : string) :
  every (fun c => negb (isSpace c)) (hd EmptyString (split_space s)) = true.
Proof.
  induction s as [|c r IH]; [reflexivity|]. cbn [split_space].
  destruct (Ascii.eqb c " ") eqn:Ec; [reflexivity|].
  destruct (split_space_cons r) as (h & t & E). rewrite E in *.
  cbn in *. unfold isSpace at 1. now rewrite Ec, IH.
Qed.

Lemma trimEnd_head (s : string) (c : ascii) (r : string) :
  trimEnd s = String c r -> exists r0, s = String c r0.
Proof.
  destruct s as [|c0 r0]; [discriminate|]. cbn.
  destruct (trimEnd r0); [destruct (isWhiteSpace c0)|];
    intros [= <- _] || discriminate; eauto.
Qed.

Lemma trimStart_head (s : string) (c : ascii) (r : string) :
  trimStart s = String c r -> isWhiteSpace c = false.
Proof.
  induction s as [|c0 r0 IH]; [discriminate|]. cbn.
  destruct (isWhiteSpace c0) eqn:E; [exact IH|].
  now intros [= <- _].
Qed.

Lemma trim_head (s : string) (c : ascii) (r : string) :
  trim s = String c r -> Ascii.eqb c " " = false.
Proof.
  unfold trim. intros H. apply trimEnd_head in H. destruct H as (r0 & H).
  apply trimStart_head in H.
  destruct (Ascii.eqb_spec c " ") as [->|]; [discriminate H|reflexivity].
Qed.

Lemma customer_create_parts {name : option string} {cust : list Exchange}
    {cid : option string} (n : string) (rq : CreateCustomerRequest)
    (r : option JsError) :
  CustomerResolution name cust cid -> name = Some n ->
  In (exchange (CreateCustomer rq) r) cust ->
  givenName rq = or_else (hd EmptyString (split_space (trim n))) n
  /\ familyName rq = join_space (tl (split_space (trim n))).
Proof.
  intros H Hn Hin; destruct H; subst; split_in Hin;
    try discriminate Hin;
    match goal with
    | H : Some _ = Some _ |- _ => injection H as ->
    end; injection Hin as <- _; auto.
Qed.

(** X15. The names a customer is created under.  The given name is the
    trimmed name up to its first space and the family name is what follows
    that space, so that the two, joined by a space, give the trimmed name
    back (a name without a space is the given name, with an empty family
    name).  A name that trims to nothing is sent untrimmed as the given
    name. *)
Theorem created_customer_names (R : Runtime) (req : Req)
    (b : CheckoutRequest) (w : World R) (n : string)
    (rq : CreateCustomerRequest) (r : option JsError) :
  body req = Some b -> customerName b = Some n ->
  In (exchange (CreateCustomer rq) r) (calls (snd (run R req w))) ->
  (trim n = EmptyString -> givenName rq = n /\ familyName rq = EmptyString)
  /\ (trim n <> EmptyString ->
      givenName rq <> EmptyString
      /\ every (fun c => negb (isSpace c)) (givenName rq) = true
      /\ ((givenName rq = trim n /\ familyName rq = EmptyString)
          \/ (givenName rq ++ " " ++ familyName rq)%string = trim n)).
Proof.
  intros Hbody Hname Hin.
  assert (Hparts :
            givenName rq = or_else (hd EmptyString (split_space (trim n))) n
            /\ familyName rq = join_space (tl (split_space (trim n)))).
  { run_inv R req w; try solve [split_in Hin; discriminate Hin].
    assert (b0 = b) by congruence; subst b0.
    apply in_checkout_calls in Hin. destruct Hin as [Hin|[Hin|Hin]].
    - discriminate Hin.
    - eapply customer_create_parts; eassumption.
    - tail_inv; split_in Hin; discriminate Hin. }
  destruct Hparts as [-> ->]. split.
  - intros ->. split; reflexivity.
  - intros Hne.
    pose proof (join_split_space (trim n)) as Hjoin.
    pose proof (first_part_has_no_space (trim n)) as Hfirst.
    destruct (trim n) as [|c t] eqn:Et; [contradiction|].
    pose proof (trim_head n c t Et) as Hc.
    cbn [split_space] in *. rewrite Hc in *.
    destruct (split_space_cons t) as (h & rest & E). rewrite E in *.
    cbn [hd tl or_else truthy] in *.
    split; [discriminate|]. split; [exact Hfirst|].
    destruct rest as [|p rest']; [left; split; [exact Hjoin|reflexivity]|].
    right. exact Hjoin.
Qed.

(** ** More on whole runs *)

(** X17. A customer name that is not a string costs no call: the run makes
    no customer call at all, and its order and payment requests go out with
    no customer attached. *)
Theorem name_not_a_string_skips_customer (R : Runtime) (req : Req)
    (b : CheckoutRequest) (w : World R) (x : Exchange) :
  body req = Some b -> customerName b = None ->
  In x (calls (snd (run R req w))) ->
  isCustomerCall (call x) = false /\ attachedCustomer (call x) = None.
Proof.
  intros Hbody Hname Hin.
  run_inv R req w; try solve [split_in Hin; subst x; split; reflexivity].
  assert (b0 = b) by congruence; subst b0.
  customer_inv; try congruence.
  tail_inv; split_in Hin; subst x; (split; [reflexivity|]); cbn;
    match goal with
    | H : OrderRequestOf _ _ _ _ ?q
      |- order_customerId (order ?q) = _ => apply (order_customer H)
    | H : PaymentRequestOf _ _ _ _ ?q
      |- payment_customerId ?q = _ => apply (payment_customer H)
    | _ => reflexivity
    end.
Qed.

(** X18. Each step is taken only after the one before it has returned:
    anything but the lookup is called only after a lookup that did not
    throw, a customer is created only after a search that returned, and a
    payment is made only after an order-creation call that returned. *)
Theorem each_step_needs_the_previous (R : Runtime) (req : Req)
    (w : World R) (x : Exchange) :
  In x (calls (snd (run R req w))) ->
  (isCatalogCall (call x) = false ->
     In (catalogExchange R w) (calls (snd (run R req w)))
     /\ failed (catalogExchange R w) = false)
  /\ (forall rq, call x = CreateCustomer rq ->
        exists n, In (exchange (searchOf n) None)
                     (calls (snd (run R req w))))
  /\ (isPaymentCall (call x) = true ->
        exists orq, In (exchange (CreateOrder orq) None)
                       (calls (snd (run R req w)))).
Proof.
  intros Hin.
  run_inv R req w;
    try solve [split_in Hin; subst x;
               repeat split; intros; discriminate].
  assert (Hok : failed (catalogExchange R w) = false).
  { destruct (failed (catalogExchange R w)) eqn:E; [|reflexivity].
    apply failed_lookup_unresolved in E. congruence. }
  split; [intros _; split; [now left|exact Hok]|].
  customer_inv; tail_inv; split_in Hin; subst x;
    (split;
     [ intros rq' Hrq; try discriminate Hrq;
       eexists; right; left; reflexivity
     | intros Hpay; try discriminate Hpay;
       eexists; apply in_cons, in_or_app; right; left; reflexivity ]).
Qed.

Ltac answered :=
  eexists;
  match goal with H : Responded _ _ _ |- _ => rewrite H end;
  reflexivity.

(** X19. The handler throws only on a POST without a body.  On every other
    request it returns after sending exactly one answer, whose status is
    200, 405 or 500; the status is 405 exactly when the method is neither
    OPTIONS nor POST. *)
Theorem handler_always_answers (R : Runtime) (req : Req) (w : World R) :
  method req <> "POST" \/ body req <> None ->
  fst (run R req w) = Fulfilled tt
  /\ (exists answer, sent (res (snd (run R req w))) = Some answer)
  /\ (statusCode (res (snd (run R req w))) = 200
      \/ statusCode (res (snd (run R req w))) = 405
      \/ statusCode (res (snd (run R req w))) = 500)
  /\ (statusCode (res (snd (run R req w))) = 405 <->
      method req <> "OPTIONS" /\ method req <> "POST").
Proof.
  intros Hreq.
  run_inv R req w;
    try (match goal with
         | H : Responded _ _ _ |- _ => rewrite H
         end; cbn [statusCode sent]).
  - split; [reflexivity|]. split; [answered|]. split; [auto|].
    split; [discriminate|]. intros [Hopt _]. contradiction.
  - split; [reflexivity|]. split; [answered|]. split; [auto|]. tauto.
  - destruct Hreq; contradiction.
  - split; [reflexivity|]. split; [answered|]. split; [auto|].
    split; [discriminate|]. intros [_ Hp]. contradiction.
  - split; [reflexivity|]. split; [answered|].
    assert (Hcode : code = 200 \/ code = 500) by (tail_inv; auto).
    split; [destruct Hcode as [-> | ->]; auto|].
    split; [destruct Hcode as [-> | ->]; discriminate|].
    intros [_ Hp]. contradiction.
Qed.

(** ** The further properties on the scripted platform *)

Import Cases.

Lemma preflight_is_answered_locally_witness :
  run (platform catalogDown) optionsRequest 0%nat
  = (Fulfilled tt,
     Build_St (platform catalogDown) 0%nat [] []
       {| headers := corsHeaders; statusCode := 200; sent := Some Ended |}).
Proof.
  apply (preflight_is_answered_locally
           (platform catalogDown) optionsRequest 0%nat).
  reflexivity.
Defined.

Lemma success_means_payment_made_witness :
  exists before orq prq paymentId status,
    calls (snd (run (platform happy) annLee 0%nat))
    = (before ++ [exchange (CreateOrder orq) None;
                  exchange (CreatePayment prq) None])%list
    /\ SuccessBody (Some "PAY1") (Some "ORDER1") (Some "COMPLETED")
       = SuccessBody paymentId (payment_orderId prq) status
    /\ (forall x, In x before ->
          isOrderCall (call x) = false /\ isPaymentCall (call x) = false)
    /\ method annLee = "POST".
Proof.
  apply (success_means_payment_made (platform happy) annLee 0%nat
           (SuccessBody (Some "PAY1") (Some "ORDER1") (Some "COMPLETED")));
    reflexivity.
Defined.

Lemma post_without_body_witness :
  fst (run (platform happy) postWithoutBody 0%nat)
  = Rejected (faultError (platform happy) DestructureNonObject)
  /\ sent (res (snd (run (platform happy) postWithoutBody 0%nat))) = None
  /\ calls (snd (run (platform happy) postWithoutBody 0%nat)) = [].
Proof.
  apply (post_without_body (platform happy) postWithoutBody 0%nat);
    reflexivity.
Defined.

Lemma calls_are_gated_witness :
  method annLee = "POST"
  /\ (exists b, body annLee = Some b)
  /\ (isCatalogCall (CreateOrder annLeeOrder) = false ->
      exists v, resolvedVariation (platform happy) 0%nat = Some v
                /\ v <> EmptyString).
Proof.
  apply (calls_are_gated (platform happy) annLee 0%nat
           (exchange (CreateOrder annLeeOrder) None)).
  vm_compute. do 3 right. left. reflexivity.
Defined.

Lemma failed_calls_are_not_retried_witness :
  exists before,
    calls (snd (run (platform orderRefused) annLee 0%nat))
    = (before ++ [exchange (CreateOrder annLeeOrder)
                           (Some (apiError "Order refused"))])%list.
Proof.
  apply (failed_calls_are_not_retried (platform orderRefused) annLee 0%nat
           (exchange (CreateOrder annLeeOrder)
                     (Some (apiError "Order refused")))).
  - vm_compute. do 3 right. left. reflexivity.
  - reflexivity.
  - reflexivity.
Defined.

Lemma price_not_finite_stops_before_order_witness :
  fst (run (platform happy) unpricedRequest 0%nat) = Fulfilled tt
  /\ statusCode (res (snd (run (platform happy) unpricedRequest 0%nat))) = 500
  /\ (forall x,
        In x (calls (snd (run (platform happy) unpricedRequest 0%nat))) ->
        isOrderCall (call x) = false /\ isPaymentCall (call x) = false)
  /\ (forall v, resolvedVariation (platform happy) 0%nat = Some v ->
        v <> EmptyString ->
        sent (res (snd (run (platform happy) unpricedRequest 0%nat)))
        = Some (Json (FailureBody
                        (faultMessage (platform happy) BigIntOfNonInteger)))).
Proof.
  apply (price_not_finite_stops_before_order
           (platform happy) unpricedRequest unpricedBody 0%nat
           [latte; unpriced]); try reflexivity.
  apply Exists_cons_tl, Exists_cons_hd. vm_compute. reflexivity.
Defined.

Lemma amount_not_finite_stops_before_payment_witness :
  fst (run (platform happy) noAmountRequest 0%nat) = Fulfilled tt
  /\ statusCode (res (snd (run (platform happy) noAmountRequest 0%nat))) = 500
  /\ (forall x,
        In x (calls (snd (run (platform happy) noAmountRequest 0%nat))) ->
        isPaymentCall (call x) = false)
  /\ exists rq r,
       In (exchange (CreateOrder rq) r)
          (calls (snd (run (platform happy) noAmountRequest 0%nat))).
Proof.
  destruct (amount_not_finite_stops_before_payment
              (platform happy) noAmountRequest noAmountBody 0%nat)
    as (Hrun & Hstatus & Hnone & Horder).
  - reflexivity.
  - reflexivity.
  - vm_compute. reflexivity.
  - split; [exact Hrun|split; [exact Hstatus|split; [exact Hnone|]]].
    apply (Horder "VAR1" [latte]); try reflexivity; [discriminate|].
    repeat constructor. vm_compute. discriminate.
Defined.


Lemma payment_follows_order_witness :
  @None JsError = None
  /\ payment_customerId annLeePayment = order_customerId (order annLeeOrder)
  /\ payment_locationId annLeePayment = order_locationId (order annLeeOrder)
  /\ payment_sourceId annLeePayment = "tok1"
  /\ payment_note annLeePayment = "Pickup: 2024-06-01".
Proof.
  apply (payment_follows_order (platform happy) annLee annLeeBody 0%nat
           annLeeOrder annLeePayment None None); try reflexivity.
  - vm_compute. do 3 right. left. reflexivity.
  - vm_compute. do 4 right. left. reflexivity.
Defined.

Lemma existing_customer_is_reused_witness :
  getOrCreateCustomer (platform onFile) (Some "Ann Lee")
    (fresh (platform onFile) 0%nat)
  = (Fulfilled (Some "CUST7"),
     Build_St (platform onFile) 0%nat [exchange annLeeSearch None] []
       (res (fresh (platform onFile) 0%nat))).
Proof.
  apply (existing_customer_is_reused (platform onFile) "Ann Lee"
           (fresh (platform onFile) 0%nat)
           {| customers := Some [ {| customer_id := Some "CUST7" |};
                                  {| customer_id := Some "CUST9" |} ] |}
           {| customer_id := Some "CUST7" |}
           [ {| customer_id := Some "CUST9" |} ] 0%nat);
    reflexivity.
Defined.

Lemma customer_failure_is_logged_witness :
  fst (getOrCreateCustomer (platform customerSearchDown) (Some "Ann Lee")
         (fresh (platform customerSearchDown) 0%nat))
  = Fulfilled None
  /\ console (snd (getOrCreateCustomer (platform customerSearchDown)
                     (Some "Ann Lee")
                     (fresh (platform customerSearchDown) 0%nat)))
     = [ErrorLine "Customer error:" "Customer search unavailable"]
  /\ res (snd (getOrCreateCustomer (platform customerSearchDown)
                 (Some "Ann Lee")
                 (fresh (platform customerSearchDown) 0%nat)))
     = res (fresh (platform customerSearchDown) 0%nat).
Proof.
  apply (customer_failure_is_logged (platform customerSearchDown)
           (Some "Ann Lee") (fresh (platform customerSearchDown) 0%nat)
           [exchange annLeeSearch
                     (Some (apiError "Customer search unavailable"))]
           (exchange annLeeSearch
                     (Some (apiError "Customer search unavailable")))
           (apiError "Customer search unavailable")).
  - reflexivity.
  - left. reflexivity.
  - reflexivity.
Defined.

Lemma catalog_failure_detail_is_only_logged_witness :
  run (platform catalogDown) annLee 0%nat
  = (Fulfilled tt,
     Build_St (platform catalogDown) 0%nat
       [exchange (RetrieveCatalogObject "ITEM1" true)
                 (Some (apiError "Catalog unavailable"))]
       [ErrorLine "Catalog error:" "Catalog unavailable"]
       {| headers := corsHeaders;
          statusCode := 500;
          sent := Some (Json (FailureBody
                                "Item variation not configured")) |}).
Proof.
  apply (catalog_failure_detail_is_only_logged
           (platform catalogDown) annLee annLeeBody 0%nat 0%nat
           (apiError "Catalog unavailable"));
    reflexivity.
Defined.

Lemma created_customer_names_witness :
  givenName {| givenName := "Ann"; familyName := "Lee";
               referenceId := "ann_lee";
               customer_idempotencyKey := "uuid-0" |} <> EmptyString
  /\ every (fun c => negb (isSpace c)) "Ann" = true
  /\ (("Ann" = trim "Ann Lee" /\ "Lee" = EmptyString)
      \/ "Ann Lee" = trim "Ann Lee").
Proof.
  apply (created_customer_names (platform happy) annLee annLeeBody 0%nat
           "Ann Lee"
           {| givenName := "Ann"; familyName := "Lee";
              referenceId := "ann_lee";
              customer_idempotencyKey := "uuid-0" |} None).
  - reflexivity.
  - reflexivity.
  - vm_compute. do 2 right. left. reflexivity.
  - discriminate.
Defined.

Lemma name_not_a_string_skips_customer_witness :
  isCustomerCall (CreateOrder anonymousOrder) = false
  /\ attachedCustomer (CreateOrder anonymousOrder) = None.
Proof.
  apply (name_not_a_string_skips_customer
           (platform happy) anonymousRequest anonymousBody 0%nat
           (exchange (CreateOrder anonymousOrder) None)).
  - reflexivity.
  - reflexivity.
  - vm_compute. right. left. reflexivity.
Defined.

Lemma each_step_needs_the_previous_witness :
  exists orq,
    In (exchange (CreateOrder orq) None)
       (calls (snd (run (platform cardDeclined) annLee 0%nat))).
Proof.
  apply (each_step_needs_the_previous (platform cardDeclined) annLee 0%nat
           (exchange (CreatePayment annLeePayment)
                     (Some (apiError "Card declined")))).
  - vm_compute. do 4 right. left. reflexivity.
  - reflexivity.
Defined.

Lemma handler_always_answers_witness :
  fst (run (platform happy) getRequest 0%nat) = Fulfilled tt
  /\ (exists answer,
        sent (res (snd (run (platform happy) getRequest 0%nat)))
        = Some answer)
  /\ (statusCode (res (snd (run (platform happy) getRequest 0%nat))) = 200
      \/ statusCode (res (snd (run (platform happy) getRequest 0%nat))) = 405
      \/ statusCode (res (snd (run (platform happy) getRequest 0%nat))) = 500)
  /\ (statusCode (res (snd (run (platform happy) getRequest 0%nat))) = 405 <->
      method getRequest <> "OPTIONS" /\ method getRequest <> "POST").
Proof.
  apply (handler_always_answers (platform happy) getRequest 0%nat).
  left. discriminate.
Defined.
